(** * SRP electronics firmware: flight state machine, buzzer queue and
      launch box protocol (LBP) link layer

    A shallow embedding of [Software/src/{actuators,inputs,eeprom,lbp,
    state_machine,main}.cpp].  Machine integers are [Z] with the wrap-around
    of their C type written out ([u8], [u16]); device registers are [Z]
    manipulated with the bit operations of the source macros; the static
    variables of all translation units are gathered in one [world] record
    that every routine takes and returns.

    An interrupt service routine is a function on [world].  One poll of the
    state machine, one call of [buzzer_beep] and one run of an interrupt
    service routine are undivided steps: interrupts come between them, not
    inside them, so [ATOMIC(...)] (cli/sei) is the identity here and the
    timer does not advance during a poll. *)

From Stdlib Require Import Strings.String Strings.Ascii.
From Stdlib Require Import ZArith List Lia Bool.
From stdpp Require Import base list.
Import ListNotations.

Local Open Scope Z_scope.

(** ** Machine integers *)

Definition u8 (z : Z) : Z := z mod 256.
Definition u16 (z : Z) : Z := z mod 65536.

(** C truth value of an integer expression. *)
Definition truthy (z : Z) : bool := negb (z =? 0).

(** [!e] *)
Definition lnot_c (z : Z) : Z := if z =? 0 then 1 else 0.

(** [~e] stored back into a [uint8_t]. *)
Definition bnot8 (z : Z) : Z := u8 (Z.lnot z).

(** Arrays of bytes are lists read and written at a [Z] index.  The source
    never checks an index; a read outside the list yields 0 here and a write
    outside it is dropped (in C both touch whatever lies behind the array). *)
Definition rd (a : list Z) (i : Z) : Z := default 0 (a !! Z.to_nat i).
Definition wr (a : list Z) (i : Z) (v : Z) : list Z := <[Z.to_nat i := v]> a.

(** ** lbp.cpp: the checksum *)

(** One turn of the loop body of [crc8]. *)
Definition crc8_round (crc : Z) : Z :=
  if truthy (Z.land crc 1)
  then u8 (Z.lxor (Z.shiftr crc 1) 0x8C)
  else u8 (Z.shiftr crc 1).

Definition crc8 (data crc : Z) : Z :=
  let crc := u8 (Z.lxor crc data) in
  Nat.iter 8 crc8_round crc.

(** The cumulative checksum as both interrupt handlers keep it: the
    accumulator starts at [acc] and every byte is folded in with [crc8]. *)
Definition crc8_run (acc : Z) (bytes : list Z) : Z :=
  fold_left (fun crc byte => crc8 byte crc) bytes acc.

(** ** The static data of the firmware *)

(** state_machine.cpp: [state_type], with the numeric value of each
    enumerator. *)
Inductive state_type :=
  | ERROR | SYSTEMS_CHECK | IDLE | PREPARATION | ARMED | LAUNCHED | DEPLOYED.

Definition state_value (s : state_type) : Z :=
  match s with
  | ERROR => 0 | SYSTEMS_CHECK => 1 | IDLE => 2 | PREPARATION => 3
  | ARMED => 4 | LAUNCHED => 5 | DEPLOYED => 6
  end.

(** lbp.cpp: the link layer states [STATE_*] of either direction. *)
Inductive link_state :=
  | STATE_IDLE | STATE_FRAME | STATE_ESCAPING | STATE_ENDING | STATE_FILLING.

Definition link_state_eqb (a b : link_state) : bool :=
  match a, b with
  | STATE_IDLE, STATE_IDLE | STATE_FRAME, STATE_FRAME
  | STATE_ESCAPING, STATE_ESCAPING | STATE_ENDING, STATE_ENDING
  | STATE_FILLING, STATE_FILLING => true
  | _, _ => false
  end.

(** actuators.cpp: [BUZZER_OFF], [BUZZER_ON], [BUZZER_COOLDOWN]. *)
Inductive buzzer_phase := BUZZER_OFF | BUZZER_ON | BUZZER_COOLDOWN.

(** actuators.cpp: [buzzer_queue_type]; [bq_queue] holds the [duration] of
    each of the [BUZZER_QUEUE_SIZE] entries. *)
Record buzzer_queue_type := {
  bq_index : Z;
  bq_length : Z;
  bq_queue : list Z
}.

(** eeprom.h: the variables kept in EEPROM. *)
Record eeprom_vars := {
  min_deploy_time : Z;
  max_deploy_time : Z;
  last_logged_deploy_time : Z;
  battery_empty_limit : Z;
  use_servo : Z;
  servo_closed_position : Z;
  servo_open_position : Z;
  lbp_address : Z
}.

(** lbp.cpp: receive and transmit state and both packet buffers. *)
Record lbp_vars := {
  rx_link_state : link_state;
  rx_crc : Z;
  lbp_rx_buffer : list Z;
  lbp_rx_buffer_length : Z;
  tx_link_state : link_state;
  tx_crc : Z;
  lbp_tx_buffer : list Z;
  lbp_tx_buffer_length : Z;
  lbp_tx_buffer_index : Z
}.

(** The registers the firmware writes: the three output ports, the servo
    compare register, and the bytes stored into the UART data register
    [UDR0], oldest first. *)
Record out_regs := {
  PORTA : Z;
  PORTB : Z;
  PORTC : Z;
  OCR1B : Z;
  UDR0_sent : list Z
}.

(** The registers the firmware only reads: the three pin registers and the
    high byte of the latest battery conversion. *)
Record in_regs := {
  PINA : Z;
  PINB : Z;
  PINC : Z;
  ADCH : Z
}.

Record world := {
  flight_state : state_type;
  buzzer_queue : buzzer_queue_type;
  buzzer_state : buzzer_phase;
  current_beep_duration : Z;
  timer_20ms : Z;
  eeprom : eeprom_vars;
  lbp : lbp_vars;
  out : out_regs;
  (** ghost: every call of [parse_packet], as (receive buffer, data_length) *)
  parsed : list (list Z * Z)
}.

(** Field updates. *)
Definition set_flight_state (v : state_type) (w : world) : world :=
  {| flight_state := v; buzzer_queue := buzzer_queue w;
     buzzer_state := buzzer_state w;
     current_beep_duration := current_beep_duration w;
     timer_20ms := timer_20ms w; eeprom := eeprom w; lbp := lbp w;
     out := out w; parsed := parsed w |}.

Definition set_buzzer_queue (v : buzzer_queue_type) (w : world) : world :=
  {| flight_state := flight_state w; buzzer_queue := v;
     buzzer_state := buzzer_state w;
     current_beep_duration := current_beep_duration w;
     timer_20ms := timer_20ms w; eeprom := eeprom w; lbp := lbp w;
     out := out w; parsed := parsed w |}.

Definition set_buzzer_state (v : buzzer_phase) (w : world) : world :=
  {| flight_state := flight_state w; buzzer_queue := buzzer_queue w;
     buzzer_state := v;
     current_beep_duration := current_beep_duration w;
     timer_20ms := timer_20ms w; eeprom := eeprom w; lbp := lbp w;
     out := out w; parsed := parsed w |}.

Definition set_current_beep_duration (v : Z) (w : world) : world :=
  {| flight_state := flight_state w; buzzer_queue := buzzer_queue w;
     buzzer_state := buzzer_state w;
     current_beep_duration := v;
     timer_20ms := timer_20ms w; eeprom := eeprom w; lbp := lbp w;
     out := out w; parsed := parsed w |}.

Definition set_timer_20ms (v : Z) (w : world) : world :=
  {| flight_state := flight_state w; buzzer_queue := buzzer_queue w;
     buzzer_state := buzzer_state w;
     current_beep_duration := current_beep_duration w;
     timer_20ms := v; eeprom := eeprom w; lbp := lbp w;
     out := out w; parsed := parsed w |}.

Definition set_eeprom (v : eeprom_vars) (w : world) : world :=
  {| flight_state := flight_state w; buzzer_queue := buzzer_queue w;
     buzzer_state := buzzer_state w;
     current_beep_duration := current_beep_duration w;
     timer_20ms := timer_20ms w; eeprom := v; lbp := lbp w;
     out := out w; parsed := parsed w |}.

Definition set_lbp (v : lbp_vars) (w : world) : world :=
  {| flight_state := flight_state w; buzzer_queue := buzzer_queue w;
     buzzer_state := buzzer_state w;
     current_beep_duration := current_beep_duration w;
     timer_20ms := timer_20ms w; eeprom := eeprom w; lbp := v;
     out := out w; parsed := parsed w |}.

Definition set_out (v : out_regs) (w : world) : world :=
  {| flight_state := flight_state w; buzzer_queue := buzzer_queue w;
     buzzer_state := buzzer_state w;
     current_beep_duration := current_beep_duration w;
     timer_20ms := timer_20ms w; eeprom := eeprom w; lbp := lbp w;
     out := v; parsed := parsed w |}.

Definition set_parsed (v : list (list Z * Z)) (w : world) : world :=
  {| flight_state := flight_state w; buzzer_queue := buzzer_queue w;
     buzzer_state := buzzer_state w;
     current_beep_duration := current_beep_duration w;
     timer_20ms := timer_20ms w; eeprom := eeprom w; lbp := lbp w;
     out := out w; parsed := v |}.

(** ** config.h: pins and pin macros *)

Inductive bank := BankA | BankB | BankC.

Definition VOTE_IN_PIN : bank * Z := (BankC, 1).
Definition ARMED_SWITCH_PIN : bank * Z := (BankA, 4).
Definition BREAKWIRE_PIN : bank * Z := (BankB, 1).
Definition CONTINUITY_DETECTION_PIN : bank * Z := (BankA, 5).

Definition BUZZER_PIN : bank * Z := (BankB, 3).
Definition PYRO_PIN : bank * Z := (BankA, 2).
Definition SERVO_PIN : bank * Z := (BankC, 0).
Definition LED_PIN : bank * Z := (BankB, 2).
Definition LAUNCH_ASSERTED_PIN : bank * Z := (BankC, 2).

(** [MASK(name, shift, value)], the result stored in an 8-bit register. *)
Definition MASK (name shift value : Z) : Z :=
  u8 (Z.lor (Z.land name (Z.lnot (Z.shiftl 1 shift))) (Z.shiftl value shift)).

Definition PORT (b : bank) (o : out_regs) : Z :=
  match b with BankA => PORTA o | BankB => PORTB o | BankC => PORTC o end.

Definition set_PORT (b : bank) (v : Z) (o : out_regs) : out_regs :=
  match b with
  | BankA => {| PORTA := v; PORTB := PORTB o; PORTC := PORTC o;
                OCR1B := OCR1B o; UDR0_sent := UDR0_sent o |}
  | BankB => {| PORTA := PORTA o; PORTB := v; PORTC := PORTC o;
                OCR1B := OCR1B o; UDR0_sent := UDR0_sent o |}
  | BankC => {| PORTA := PORTA o; PORTB := PORTB o; PORTC := v;
                OCR1B := OCR1B o; UDR0_sent := UDR0_sent o |}
  end.

Definition set_OCR1B (v : Z) (o : out_regs) : out_regs :=
  {| PORTA := PORTA o; PORTB := PORTB o; PORTC := PORTC o;
     OCR1B := v; UDR0_sent := UDR0_sent o |}.

(** [UDR0 = v]: the byte goes out on the wire. *)
Definition set_UDR0 (v : Z) (o : out_regs) : out_regs :=
  {| PORTA := PORTA o; PORTB := PORTB o; PORTC := PORTC o;
     OCR1B := OCR1B o; UDR0_sent := UDR0_sent o ++ [v] |}.

Definition PIN (b : bank) (i : in_regs) : Z :=
  match b with BankA => PINA i | BankB => PINB i | BankC => PINC i end.

Definition READ_PIN (pin : bank * Z) (i : in_regs) : Z :=
  Z.land (PIN (fst pin) i) (Z.shiftl 1 (snd pin)).

Definition WRITE_PIN (pin : bank * Z) (val : Z) (w : world) : world :=
  set_out (set_PORT (fst pin) (MASK (PORT (fst pin) (out w)) (snd pin) val)
             (out w)) w.

(** The level last written to an output pin. *)
Definition pin_level (pin : bank * Z) (w : world) : bool :=
  Z.testbit (PORT (fst pin) (out w)) (snd pin).

(** ** inputs.cpp *)

Definition is_vote_asserted (i : in_regs) : Z :=
  lnot_c (READ_PIN VOTE_IN_PIN i).

Definition is_squib_connected (i : in_regs) : Z :=
  u8 (READ_PIN CONTINUITY_DETECTION_PIN i).

Definition is_armed (i : in_regs) : Z := lnot_c (READ_PIN ARMED_SWITCH_PIN i).

Definition is_breakwire_connected (i : in_regs) : Z :=
  u8 (READ_PIN BREAKWIRE_PIN i).

(** The conversion result, read once the free running converter has flagged
    a finished conversion (the wait for [ADIF] is not modelled). *)
Definition get_battery_value (i : in_regs) : Z := ADCH i.

(** ** eeprom.h: accessors *)

Definition set_last_logged_deploy_time (v : Z) (e : eeprom_vars)
    : eeprom_vars :=
  {| min_deploy_time := min_deploy_time e; max_deploy_time := max_deploy_time e;
     last_logged_deploy_time := v;
     battery_empty_limit := battery_empty_limit e; use_servo := use_servo e;
     servo_closed_position := servo_closed_position e;
     servo_open_position := servo_open_position e;
     lbp_address := lbp_address e |}.

Definition set_min_deploy_time (v : Z) (e : eeprom_vars) : eeprom_vars :=
  {| min_deploy_time := v; max_deploy_time := max_deploy_time e;
     last_logged_deploy_time := last_logged_deploy_time e;
     battery_empty_limit := battery_empty_limit e; use_servo := use_servo e;
     servo_closed_position := servo_closed_position e;
     servo_open_position := servo_open_position e;
     lbp_address := lbp_address e |}.

Definition set_max_deploy_time (v : Z) (e : eeprom_vars) : eeprom_vars :=
  {| min_deploy_time := min_deploy_time e; max_deploy_time := v;
     last_logged_deploy_time := last_logged_deploy_time e;
     battery_empty_limit := battery_empty_limit e; use_servo := use_servo e;
     servo_closed_position := servo_closed_position e;
     servo_open_position := servo_open_position e;
     lbp_address := lbp_address e |}.

Definition set_battery_empty_limit (v : Z) (e : eeprom_vars) : eeprom_vars :=
  {| min_deploy_time := min_deploy_time e; max_deploy_time := max_deploy_time e;
     last_logged_deploy_time := last_logged_deploy_time e;
     battery_empty_limit := v; use_servo := use_servo e;
     servo_closed_position := servo_closed_position e;
     servo_open_position := servo_open_position e;
     lbp_address := lbp_address e |}.

Definition set_use_servo (v : Z) (e : eeprom_vars) : eeprom_vars :=
  {| min_deploy_time := min_deploy_time e; max_deploy_time := max_deploy_time e;
     last_logged_deploy_time := last_logged_deploy_time e;
     battery_empty_limit := battery_empty_limit e; use_servo := v;
     servo_closed_position := servo_closed_position e;
     servo_open_position := servo_open_position e;
     lbp_address := lbp_address e |}.

Definition set_servo_closed_position (v : Z) (e : eeprom_vars) : eeprom_vars :=
  {| min_deploy_time := min_deploy_time e; max_deploy_time := max_deploy_time e;
     last_logged_deploy_time := last_logged_deploy_time e;
     battery_empty_limit := battery_empty_limit e; use_servo := use_servo e;
     servo_closed_position := v;
     servo_open_position := servo_open_position e;
     lbp_address := lbp_address e |}.

Definition set_servo_open_position (v : Z) (e : eeprom_vars) : eeprom_vars :=
  {| min_deploy_time := min_deploy_time e; max_deploy_time := max_deploy_time e;
     last_logged_deploy_time := last_logged_deploy_time e;
     battery_empty_limit := battery_empty_limit e; use_servo := use_servo e;
     servo_closed_position := servo_closed_position e;
     servo_open_position := v;
     lbp_address := lbp_address e |}.

Definition set_lbp_address (v : Z) (e : eeprom_vars) : eeprom_vars :=
  {| min_deploy_time := min_deploy_time e; max_deploy_time := max_deploy_time e;
     last_logged_deploy_time := last_logged_deploy_time e;
     battery_empty_limit := battery_empty_limit e; use_servo := use_servo e;
     servo_closed_position := servo_closed_position e;
     servo_open_position := servo_open_position e;
     lbp_address := v |}.

(** [eeprom_write] / [eeprom_write_safe] of one variable: [upd] is the
    update of that variable. *)
Definition eeprom_write (upd : Z -> eeprom_vars -> eeprom_vars) (value : Z)
    (w : world) : world :=
  set_eeprom (upd value (eeprom w)) w.

(** ** actuators.cpp *)

Definition ON : Z := 1.
Definition OFF : Z := 0.

Definition BEEP_SHORT : Z := 12.
Definition BEEP_NORMAL : Z := 25.
Definition BEEP_LONG : Z := 50.
Definition BEEP_FOREVER : Z := 0xFF.

Definition BUZZER_QUEUE_SIZE : Z := 8.

Definition servo_tick (w : world) : world := WRITE_PIN SERVO_PIN 1 w.

Definition timer_tick (w : world) : world :=
  set_timer_20ms (u16 (timer_20ms w + 1)) w.

Definition buzzer_tick (w : world) : world :=
  match buzzer_state w with
  | BUZZER_OFF =>
      (* should we turn the buzzer on? *)
      if truthy (bq_length (buzzer_queue w)) then
        let w := set_buzzer_state BUZZER_ON w in
        let w := set_current_beep_duration 0 w in
        WRITE_PIN BUZZER_PIN 1 w
      else w
  | phase =>
      (* check if we should state switch *)
      let w := set_current_beep_duration (u8 (current_beep_duration w + 1)) w in
      let q := buzzer_queue w in
      if current_beep_duration w >? rd (bq_queue q) (bq_index q) then
        match phase with
        | BUZZER_ON =>
            let w := set_buzzer_state BUZZER_COOLDOWN w in
            let w := set_current_beep_duration 0 w in
            WRITE_PIN BUZZER_PIN 0 w
        | _ =>
            let q := {| bq_index := (bq_index q + 1) mod BUZZER_QUEUE_SIZE;
                        bq_length := u8 (bq_length q - 1);
                        bq_queue := bq_queue q |} in
            let w := set_buzzer_queue q w in
            if truthy (bq_length q) then
              let w := set_buzzer_state BUZZER_ON w in
              let w := set_current_beep_duration 0 w in
              WRITE_PIN BUZZER_PIN 1 w
            else set_buzzer_state BUZZER_OFF w
        end
      else w
  end.

(** [ISR(TIMER1_COMPB_vect)] *)
Definition TIMER1_COMPB_vect (w : world) : world := WRITE_PIN SERVO_PIN 0 w.

(** [ISR(TIMER1_COMPA_vect)] *)
Definition TIMER1_COMPA_vect (w : world) : world :=
  buzzer_tick (timer_tick (servo_tick w)).

Definition buzzer_beep (len : Z) (w : world) : world :=
  let q := buzzer_queue w in
  (* guard against full queue *)
  if negb (bq_length q =? BUZZER_QUEUE_SIZE) then
    let entry := (bq_index q + bq_length q) mod BUZZER_QUEUE_SIZE in
    set_buzzer_queue {| bq_index := bq_index q;
                        bq_length := u8 (bq_length q + 1);
                        bq_queue := wr (bq_queue q) entry len |} w
  else w.

Definition buzzer_queue_length (w : world) : Z := bq_length (buzzer_queue w).

Definition set_status_led (enabled : Z) (w : world) : world :=
  WRITE_PIN LED_PIN enabled w.

Definition set_pyro_state (enabled : Z) (w : world) : world :=
  WRITE_PIN PYRO_PIN enabled w.

(** The compare value is computed in 16-bit unsigned arithmetic. *)
Definition set_servo_position (position : Z) (w : world) : world :=
  set_out (set_OCR1B (u16 (921 + u16 (position * 231) / 64)) (out w)) w.

Definition set_launch_asserted (enabled : Z) (w : world) : world :=
  WRITE_PIN LAUNCH_ASSERTED_PIN enabled w.

Definition reset_timer (w : world) : world := set_timer_20ms 0 w.

Definition get_timer (w : world) : Z := timer_20ms w.

(** ** state_machine.cpp *)

(** [eeprom_read_safe(&var)] *)
Definition eeprom_read_safe (var : eeprom_vars -> Z) (w : world) : Z :=
  var (eeprom w).

Definition lbp_state_error (w : world) : Z :=
  match flight_state w with ERROR => 1 | _ => 0 end.

Definition lbp_state_armed (w : world) : Z :=
  if state_value (flight_state w) >=? state_value ARMED then 1 else 0.

(** One poll of the state machine, with the input registers as they read
    during the poll. *)
Definition update_state_machine (i : in_regs) (w : world) : world :=
  match flight_state w with
  | ERROR =>
      (* be annoying *)
      let w := if negb (truthy (buzzer_queue_length w))
               then buzzer_beep BEEP_LONG w else w in
      if negb (truthy (is_armed i))
         && (get_battery_value i >? eeprom_read_safe battery_empty_limit w)
         && (truthy (eeprom_read_safe use_servo w)
             || truthy (is_squib_connected i))
      then
        let w := buzzer_beep BEEP_SHORT w in
        let w := buzzer_beep BEEP_SHORT w in
        let w := set_status_led ON w in
        set_flight_state IDLE w
      else w
  | SYSTEMS_CHECK =>
      (* close the servo if necessary *)
      let w := if truthy (eeprom_read_safe use_servo w)
               then set_servo_position
                      (eeprom_read_safe servo_closed_position w) w
               else w in
      if (get_battery_value i <=? eeprom_read_safe battery_empty_limit w)
         || (negb (truthy (eeprom_read_safe use_servo w))
             && negb (truthy (is_squib_connected i)))
      then set_flight_state ERROR w
      else
        let w := buzzer_beep BEEP_SHORT w in
        let w := buzzer_beep BEEP_SHORT w in
        let w := set_status_led ON w in
        set_flight_state IDLE w
  | IDLE =>
      if truthy (is_armed i) then set_flight_state ERROR w
      else if truthy (is_breakwire_connected i) then
        let w := buzzer_beep BEEP_SHORT w in
        let w := buzzer_beep BEEP_SHORT w in
        let w := set_status_led OFF w in
        set_flight_state PREPARATION w
      else w
  | PREPARATION =>
      if negb (truthy (is_breakwire_connected i)) then
        let w := buzzer_beep BEEP_LONG w in
        let w := set_status_led ON w in
        set_flight_state IDLE w
      else if truthy (is_armed i) then
        if negb (truthy (eeprom_read_safe use_servo w))
           && negb (truthy (is_squib_connected i))
        then set_flight_state ERROR w
        else
          let w := buzzer_beep BEEP_SHORT w in
          let w := buzzer_beep BEEP_SHORT w in
          let w := set_status_led ON w in
          set_flight_state ARMED w
      else w
  | ARMED =>
      if negb (truthy (is_armed i)) then
        let w := buzzer_beep BEEP_LONG w in
        let w := set_status_led OFF w in
        set_flight_state PREPARATION w
      else if negb (truthy (is_breakwire_connected i)) then
        let w := reset_timer w in
        let w := set_launch_asserted ON w in
        set_flight_state LAUNCHED w
      else w
  | LAUNCHED =>
      let w := if negb (truthy (buzzer_queue_length w))
               then buzzer_beep BEEP_SHORT w else w in
      if (get_timer w >=? eeprom_read_safe max_deploy_time w)
         || ((get_timer w >=? eeprom_read_safe min_deploy_time w)
             && truthy (is_vote_asserted i))
      then
        let w := if truthy (eeprom_read_safe use_servo w)
                 then set_servo_position
                        (eeprom_read_safe servo_open_position w) w
                 else set_pyro_state ON w in
        let w := eeprom_write set_last_logged_deploy_time (get_timer w) w in
        set_flight_state DEPLOYED w
      else w
  | DEPLOYED =>
      if negb (truthy (buzzer_queue_length w))
      then buzzer_beep BEEP_LONG w else w
  end.

(** ** lbp.h / lbp.cpp *)

Definition CHAR_ESCAPE : Z := 0x50.
Definition CHAR_START : Z := 0x55.
Definition CHAR_STOP : Z := 0x5A.

Definition LBP_BUFFER_SIZE : Z := 32.

Definition LBP_TYPE_MASK : Z := 0xC0.
Definition LBP_SEQNUM_MASK : Z := 0xC0.
Definition LBP_ADDRESS_MASK : Z := 0x3F.

Definition LBP_SYNC : Z := 0x00.
Definition LBP_REPLY : Z := 0x40.
Definition LBP_ASYNC : Z := 0x80.
Definition LBP_BROADCAST : Z := 0xC0.

Definition LBP_SOURCE_ADDRESS : Z := 0x3F.

Definition LBP_NACK : Z := 0x01.
Definition LBP_IDENTIFY : Z := 0x02.
Definition LBP_IDENTIFY_ASYNC_REPLY : Z := 0x03.
Definition LBP_EXTENDED_IDENTIFY : Z := 0x03.
Definition LBP_NETWORK_DISCOVERY : Z := 0x04.
Definition LBP_NETWORK_DISCOVERY_ASYNC_REPLY : Z := 0x05.
Definition LBP_STATUS_REQUEST : Z := 0x06.
Definition LBP_STATUS_REQUEST_ASYNC_REPLY : Z := 0x07.

Definition LBP_IDENTIFY_CONTENT_0 : Z := 0xB0.
Definition LBP_IDENTIFY_CONTENT_1 : Z := 0x01.

Definition LBP_EXTENDED_IDENTIFY_CONTENT_0 : Z := 0x0B.
Definition LBP_EXTENDED_IDENTIFY_CONTENT_1 : Z := 0x00.
Definition LBP_EXTENDED_IDENTIFY_NAME : String.string := "SRP V0.0 "%string.

(** The characters of a C string literal, and the bytes of the literal
    with its terminating NUL. *)
Definition c_chars (s : String.string) : list Z :=
  map (fun c => Z.of_N (Ascii.N_of_ascii c)) (String.list_ascii_of_string s).

Definition c_string (s : String.string) : list Z := c_chars s ++ [0].

(** Updates of the link layer variables. *)
Definition set_rx_link_state (v : link_state) (l : lbp_vars) : lbp_vars :=
  {| rx_link_state := v; rx_crc := rx_crc l;
     lbp_rx_buffer := lbp_rx_buffer l;
     lbp_rx_buffer_length := lbp_rx_buffer_length l;
     tx_link_state := tx_link_state l; tx_crc := tx_crc l;
     lbp_tx_buffer := lbp_tx_buffer l;
     lbp_tx_buffer_length := lbp_tx_buffer_length l;
     lbp_tx_buffer_index := lbp_tx_buffer_index l |}.

Definition set_rx_crc (v : Z) (l : lbp_vars) : lbp_vars :=
  {| rx_link_state := rx_link_state l; rx_crc := v;
     lbp_rx_buffer := lbp_rx_buffer l;
     lbp_rx_buffer_length := lbp_rx_buffer_length l;
     tx_link_state := tx_link_state l; tx_crc := tx_crc l;
     lbp_tx_buffer := lbp_tx_buffer l;
     lbp_tx_buffer_length := lbp_tx_buffer_length l;
     lbp_tx_buffer_index := lbp_tx_buffer_index l |}.

Definition set_lbp_rx_buffer (v : list Z) (l : lbp_vars) : lbp_vars :=
  {| rx_link_state := rx_link_state l; rx_crc := rx_crc l;
     lbp_rx_buffer := v;
     lbp_rx_buffer_length := lbp_rx_buffer_length l;
     tx_link_state := tx_link_state l; tx_crc := tx_crc l;
     lbp_tx_buffer := lbp_tx_buffer l;
     lbp_tx_buffer_length := lbp_tx_buffer_length l;
     lbp_tx_buffer_index := lbp_tx_buffer_index l |}.

Definition set_lbp_rx_buffer_length (v : Z) (l : lbp_vars) : lbp_vars :=
  {| rx_link_state := rx_link_state l; rx_crc := rx_crc l;
     lbp_rx_buffer := lbp_rx_buffer l;
     lbp_rx_buffer_length := v;
     tx_link_state := tx_link_state l; tx_crc := tx_crc l;
     lbp_tx_buffer := lbp_tx_buffer l;
     lbp_tx_buffer_length := lbp_tx_buffer_length l;
     lbp_tx_buffer_index := lbp_tx_buffer_index l |}.

Definition set_tx_link_state (v : link_state) (l : lbp_vars) : lbp_vars :=
  {| rx_link_state := rx_link_state l; rx_crc := rx_crc l;
     lbp_rx_buffer := lbp_rx_buffer l;
     lbp_rx_buffer_length := lbp_rx_buffer_length l;
     tx_link_state := v; tx_crc := tx_crc l;
     lbp_tx_buffer := lbp_tx_buffer l;
     lbp_tx_buffer_length := lbp_tx_buffer_length l;
     lbp_tx_buffer_index := lbp_tx_buffer_index l |}.

Definition set_tx_crc (v : Z) (l : lbp_vars) : lbp_vars :=
  {| rx_link_state := rx_link_state l; rx_crc := rx_crc l;
     lbp_rx_buffer := lbp_rx_buffer l;
     lbp_rx_buffer_length := lbp_rx_buffer_length l;
     tx_link_state := tx_link_state l; tx_crc := v;
     lbp_tx_buffer := lbp_tx_buffer l;
     lbp_tx_buffer_length := lbp_tx_buffer_length l;
     lbp_tx_buffer_index := lbp_tx_buffer_index l |}.

Definition set_lbp_tx_buffer (v : list Z) (l : lbp_vars) : lbp_vars :=
  {| rx_link_state := rx_link_state l; rx_crc := rx_crc l;
     lbp_rx_buffer := lbp_rx_buffer l;
     lbp_rx_buffer_length := lbp_rx_buffer_length l;
     tx_link_state := tx_link_state l; tx_crc := tx_crc l;
     lbp_tx_buffer := v;
     lbp_tx_buffer_length := lbp_tx_buffer_length l;
     lbp_tx_buffer_index := lbp_tx_buffer_index l |}.

Definition set_lbp_tx_buffer_length (v : Z) (l : lbp_vars) : lbp_vars :=
  {| rx_link_state := rx_link_state l; rx_crc := rx_crc l;
     lbp_rx_buffer := lbp_rx_buffer l;
     lbp_rx_buffer_length := lbp_rx_buffer_length l;
     tx_link_state := tx_link_state l; tx_crc := tx_crc l;
     lbp_tx_buffer := lbp_tx_buffer l;
     lbp_tx_buffer_length := v;
     lbp_tx_buffer_index := lbp_tx_buffer_index l |}.

Definition set_lbp_tx_buffer_index (v : Z) (l : lbp_vars) : lbp_vars :=
  {| rx_link_state := rx_link_state l; rx_crc := rx_crc l;
     lbp_rx_buffer := lbp_rx_buffer l;
     lbp_rx_buffer_length := lbp_rx_buffer_length l;
     tx_link_state := tx_link_state l; tx_crc := tx_crc l;
     lbp_tx_buffer := lbp_tx_buffer l;
     lbp_tx_buffer_length := lbp_tx_buffer_length l;
     lbp_tx_buffer_index := v |}.

(** [lbp_packet] is laid over a buffer: [srcinfo], [destinfo], [id] are its
    bytes 0, 1, 2 and [data[k]] is byte [3 + k].  In [parse_packet] and
    [lbp_handler], [packet] points to the receive buffer and [reply] to the
    transmit buffer. *)
Definition packet_srcinfo (w : world) : Z := rd (lbp_rx_buffer (lbp w)) 0.
Definition packet_destinfo (w : world) : Z := rd (lbp_rx_buffer (lbp w)) 1.
Definition packet_id (w : world) : Z := rd (lbp_rx_buffer (lbp w)) 2.
Definition packet_data (k : Z) (w : world) : Z :=
  rd (lbp_rx_buffer (lbp w)) (3 + k).

Definition set_packet (k v : Z) (w : world) : world :=
  set_lbp (set_lbp_rx_buffer (wr (lbp_rx_buffer (lbp w)) k v) (lbp w)) w.
Definition set_packet_srcinfo (v : Z) (w : world) : world := set_packet 0 v w.
Definition set_packet_id (v : Z) (w : world) : world := set_packet 2 v w.

Definition reply_srcinfo (w : world) : Z := rd (lbp_tx_buffer (lbp w)) 0.
Definition reply_destinfo (w : world) : Z := rd (lbp_tx_buffer (lbp w)) 1.
Definition reply_id (w : world) : Z := rd (lbp_tx_buffer (lbp w)) 2.
Definition reply_data (k : Z) (w : world) : Z :=
  rd (lbp_tx_buffer (lbp w)) (3 + k).

Definition set_reply (k v : Z) (w : world) : world :=
  set_lbp (set_lbp_tx_buffer (wr (lbp_tx_buffer (lbp w)) k v) (lbp w)) w.
Definition set_reply_srcinfo (v : Z) (w : world) : world := set_reply 0 v w.
Definition set_reply_destinfo (v : Z) (w : world) : world := set_reply 1 v w.
Definition set_reply_id (v : Z) (w : world) : world := set_reply 2 v w.
Definition set_reply_data (k v : Z) (w : world) : world :=
  set_reply (3 + k) v w.

(** [LBP_TYPE(packet)], [LBP_SRC_ADDR(packet)], [LBP_SEQNUM(packet)] *)
Definition LBP_TYPE (w : world) : Z := Z.land (packet_srcinfo w) LBP_TYPE_MASK.
Definition LBP_SRC_ADDR (w : world) : Z :=
  Z.land (packet_srcinfo w) LBP_ADDRESS_MASK.
Definition LBP_SEQNUM (w : world) : Z :=
  Z.land (packet_destinfo w) LBP_SEQNUM_MASK.

(** [UDR0 = v] *)
Definition UDR0_write (v : Z) (w : world) : world :=
  set_out (set_UDR0 v (out w)) w.

(** [lbp_get_tx_buffer]: [true] with the buffer claimed, or [false] for the
    NULL pointer. *)
Definition lbp_get_tx_buffer (w : world) : bool * world :=
  if link_state_eqb (tx_link_state (lbp w)) STATE_IDLE then
    let w := set_lbp (set_tx_link_state STATE_FILLING (lbp w)) w in
    (true, set_reply_srcinfo LBP_SOURCE_ADDRESS w)
  else (false, w).

Definition lbp_send_message (data_length : Z) (w : world) : world :=
  let w := set_lbp (set_lbp_tx_buffer_length (u8 (data_length + 3)) (lbp w))
             w in
  let w := set_lbp (set_lbp_tx_buffer_index 0 (lbp w)) w in
  let w := set_lbp (set_tx_crc 0 (lbp w)) w in
  (* start the frame *)
  let w := UDR0_write CHAR_START w in
  set_lbp (set_tx_link_state STATE_FRAME (lbp w)) w.

Definition lbp_discard_message (w : world) : world :=
  set_lbp (set_tx_link_state STATE_IDLE (lbp w)) w.

(** main.cpp: message ids of the application *)
Definition LBP_GET_MIN_DEPLOY_TIME : Z := 0x10.
Definition LBP_SET_MIN_DEPLOY_TIME : Z := 0x20.
Definition LBP_GET_MAX_DEPLOY_TIME : Z := 0x11.
Definition LBP_SET_MAX_DEPLOY_TIME : Z := 0x21.
Definition LBP_GET_MEASURED_DEPLOY_TIME : Z := 0x12.
Definition LBP_GET_BATTERY_VOLTAGE : Z := 0x13.
Definition LBP_GET_BATTERY_EMPTY_LIMIT : Z := 0x14.
Definition LBP_SET_BATTERY_EMPTY_LIMIT : Z := 0x24.
Definition LBP_GET_DEPLOY_MODE : Z := 0x15.
Definition LBP_SET_DEPLOY_MODE : Z := 0x25.
Definition LBP_GET_SERVO_CLOSED_POSITION : Z := 0x16.
Definition LBP_SET_SERVO_CLOSED_POSITION : Z := 0x26.
Definition LBP_GET_SERVO_OPEN_POSITION : Z := 0x17.
Definition LBP_SET_SERVO_OPEN_POSITION : Z := 0x27.
Definition LBP_SET_SERVO_POSITION : Z := 0x28.
Definition LBP_GET_ADDRESS : Z := 0x19.
Definition LBP_SET_ADDRESS : Z := 0x29.

(** The end of [lbp_handler], reached by every [break] and by every id
    without a case. *)
Definition handler_nack (w : world) : world :=
  lbp_send_message 0 (set_reply_id LBP_NACK w).

(** A setter of a two byte variable. *)
Definition handler_set16 (upd : Z -> eeprom_vars -> eeprom_vars)
    (data_length : Z) (w : world) : world :=
  if negb (data_length =? 2) then handler_nack w
  else
    let temp := u16 (Z.lor (Z.shiftl (packet_data 1 w) 8) (packet_data 0 w)) in
    let w := eeprom_write upd temp w in
    let w := set_reply_data 0 (packet_data 0 w) w in
    let w := set_reply_data 1 (packet_data 1 w) w in
    lbp_send_message 2 w.

(** A setter of a one byte variable; [store] is what is done with the
    byte. *)
Definition handler_set8 (store : Z -> world -> world)
    (data_length : Z) (w : world) : world :=
  if negb (data_length =? 1) then handler_nack w
  else
    let w := store (packet_data 0 w) w in
    let w := set_reply_data 0 (packet_data 0 w) w in
    lbp_send_message 1 w.

Definition handler_get16 (var : eeprom_vars -> Z) (w : world) : world :=
  let temp := var (eeprom w) in
  let w := set_reply_data 1 (u8 (Z.shiftr temp 8)) w in
  let w := set_reply_data 0 (Z.land temp 0xFF) w in
  lbp_send_message 2 w.

Definition handler_get8 (value : Z) (w : world) : world :=
  let w := set_reply_data 0 value w in
  lbp_send_message 1 w.

(** main.cpp: [lbp_handler] *)
Definition lbp_handler (i : in_regs) (data_length : Z) (w : world) : world :=
  let w := set_reply_id (packet_id w) w in
  let id := packet_id w in
  if id >=? 0x20 then
    (* all setters *)
    if id =? LBP_SET_MIN_DEPLOY_TIME then
      handler_set16 set_min_deploy_time data_length w
    else if id =? LBP_SET_MAX_DEPLOY_TIME then
      handler_set16 set_max_deploy_time data_length w
    else if id =? LBP_SET_BATTERY_EMPTY_LIMIT then
      handler_set8 (eeprom_write set_battery_empty_limit) data_length w
    else if id =? LBP_SET_DEPLOY_MODE then
      handler_set8 (eeprom_write set_use_servo) data_length w
    else if id =? LBP_SET_SERVO_CLOSED_POSITION then
      handler_set8 (eeprom_write set_servo_closed_position) data_length w
    else if id =? LBP_SET_SERVO_OPEN_POSITION then
      handler_set8 (eeprom_write set_servo_open_position) data_length w
    else if id =? LBP_SET_SERVO_POSITION then
      handler_set8 set_servo_position data_length w
    else if id =? LBP_SET_ADDRESS then
      handler_set8 (eeprom_write set_lbp_address) data_length w
    else handler_nack w
  else if negb (truthy data_length) then
    (* getters *)
    if id =? LBP_GET_MIN_DEPLOY_TIME then handler_get16 min_deploy_time w
    else if id =? LBP_GET_MAX_DEPLOY_TIME then handler_get16 max_deploy_time w
    else if id =? LBP_GET_MEASURED_DEPLOY_TIME then
      handler_get16 last_logged_deploy_time w
    else if id =? LBP_GET_BATTERY_VOLTAGE then
      handler_get8 (get_battery_value i) w
    else if id =? LBP_GET_BATTERY_EMPTY_LIMIT then
      handler_get8 (battery_empty_limit (eeprom w)) w
    else if id =? LBP_GET_DEPLOY_MODE then handler_get8 (use_servo (eeprom w)) w
    else if id =? LBP_GET_SERVO_CLOSED_POSITION then
      handler_get8 (servo_closed_position (eeprom w)) w
    else if id =? LBP_GET_SERVO_OPEN_POSITION then
      handler_get8 (servo_open_position (eeprom w)) w
    else if id =? LBP_GET_ADDRESS then handler_get8 (lbp_address (eeprom w)) w
    else handler_nack w
  else handler_nack w.

(** The loop of the page 1 answer:
    [for (temp = 0; NAME[temp]; temp++) reply->data[temp] = NAME[temp];]
    over the bytes [name] of the literal from position [temp] on.  It
    returns the final [temp]. *)
Fixpoint copy_name (name : list Z) (temp : Z) (w : world) : Z * world :=
  match name with
  | [] => (temp, w)
  | c :: name =>
      if truthy c
      then copy_name name (u8 (temp + 1)) (set_reply_data temp c w)
      else (temp, w)
  end.

(** [parse_packet(packet, data_length)] with [packet] the receive buffer. *)
Definition parse_packet (i : in_regs) (data_length : Z) (w : world) : world :=
  (* acquire a reply buffer *)
  let (reply, w) := lbp_get_tx_buffer w in
  if negb reply then w
  else
    let w := set_reply_destinfo (Z.lor (LBP_SRC_ADDR w) (LBP_SEQNUM w)) w in
    (* This device doesn't care about getting a reply *)
    if LBP_TYPE w =? LBP_REPLY then lbp_discard_message w
    else if packet_id w <? 0x10 then
      let id := packet_id w in
      if id =? LBP_NACK then lbp_discard_message w
      else if id =? LBP_IDENTIFY then
        let w := set_packet_srcinfo
                   (u8 (Z.lor (packet_srcinfo w)
                          (if LBP_TYPE w =? LBP_SYNC
                           then LBP_REPLY else LBP_ASYNC))) w in
        let w := set_packet_id
                   (if LBP_TYPE w =? LBP_ASYNC
                    then LBP_IDENTIFY_ASYNC_REPLY else LBP_IDENTIFY) w in
        let w := set_reply_data 0 LBP_IDENTIFY_CONTENT_0 w in
        let w := set_reply_data 1 LBP_IDENTIFY_CONTENT_1 w in
        lbp_send_message 2 w
      else if id =? LBP_EXTENDED_IDENTIFY then
        (* syncronous only *)
        if negb (LBP_TYPE w =? LBP_SYNC) then lbp_discard_message w
        else
          let w := set_packet_srcinfo
                     (u8 (Z.lor (packet_srcinfo w) LBP_REPLY)) w in
          (* calculate the page number and nack if it's reserved *)
          let temp := if data_length <? 1 then 0 else packet_data 0 w in
          if temp >=? 0x10 then
            let w := set_packet_id LBP_NACK w in
            lbp_send_message 0 w
          else
            let w := set_packet_id LBP_EXTENDED_IDENTIFY w in
            if temp =? 0 then
              let w := set_reply_data 0 LBP_EXTENDED_IDENTIFY_CONTENT_0 w in
              let w := set_reply_data 1 LBP_EXTENDED_IDENTIFY_CONTENT_1 w in
              lbp_send_message 2 w
            else if temp =? 1 then
              let (temp, w) :=
                copy_name (c_string LBP_EXTENDED_IDENTIFY_NAME) 0 w in
              lbp_send_message (u8 (temp - 1)) w
            else lbp_send_message 0 w
      else if id =? LBP_NETWORK_DISCOVERY then
        if LBP_TYPE w =? LBP_SYNC then
          let w := set_packet_srcinfo
                     (u8 (Z.lor (packet_srcinfo w) LBP_REPLY)) w in
          let w := set_packet_id LBP_NACK w in
          lbp_send_message 0 w
        else lbp_discard_message w
      else if id =? LBP_STATUS_REQUEST then
        let w := set_packet_srcinfo
                   (u8 (Z.lor (packet_srcinfo w)
                          (if LBP_TYPE w =? LBP_SYNC
                           then LBP_REPLY else LBP_ASYNC))) w in
        let w := set_packet_id
                   (if LBP_TYPE w =? LBP_ASYNC
                    then LBP_STATUS_REQUEST_ASYNC_REPLY
                    else LBP_STATUS_REQUEST) w in
        let w := set_reply_data 0
                   (u8 (Z.lor (Z.lor (Z.shiftl 1 4)
                                 (if truthy (lbp_state_error w)
                                  then Z.shiftl 2 1 else 0))
                          (if truthy (lbp_state_armed w) then 1 else 0))) w in
        lbp_send_message 1 w
      else
        (* default: *)
        if LBP_TYPE w =? LBP_SYNC then
          let w := set_packet_srcinfo
                     (u8 (Z.lor (packet_srcinfo w) LBP_REPLY)) w in
          let w := set_packet_id LBP_NACK w in
          lbp_send_message 0 w
        else lbp_discard_message w
    else
      if LBP_TYPE w =? LBP_SYNC then
        let w := set_reply_srcinfo (u8 (Z.lor (reply_srcinfo w) LBP_REPLY)) w in
        lbp_handler i data_length w
      else lbp_discard_message w.

(** The end of [ISR(USART0_RX_vect)]: "this is a valid data bit, add it". *)
Definition rx_store (byte : Z) (w : world) : world :=
  let l := lbp w in
  if lbp_rx_buffer_length l =? LBP_BUFFER_SIZE then
    (* we're full, ignore this packet *)
    set_lbp (set_rx_link_state STATE_IDLE l) w
  else
    let l := set_lbp_rx_buffer
               (wr (lbp_rx_buffer l) (lbp_rx_buffer_length l) byte) l in
    let l := set_lbp_rx_buffer_length (u8 (lbp_rx_buffer_length l + 1)) l in
    let l := set_rx_crc (crc8 byte (rx_crc l)) l in
    set_lbp l w.

(** [ISR(USART0_RX_vect)], with [UDR0] the byte read from the shift
    register.  Every call of [parse_packet] is noted in [parsed]. *)
Definition USART0_RX_vect (i : in_regs) (UDR0 : Z) (w : world) : world :=
  let byte := UDR0 in
  let l := lbp w in
  (* are we escaping *)
  if link_state_eqb (rx_link_state l) STATE_ESCAPING then
    let byte := bnot8 byte in
    let w := set_lbp (set_rx_link_state STATE_FRAME l) w in
    rx_store byte w
  (* or are we in a frame *)
  else if link_state_eqb (rx_link_state l) STATE_FRAME then
    if byte =? CHAR_ESCAPE then
      set_lbp (set_rx_link_state STATE_ESCAPING l) w
    else if byte =? CHAR_START then
      (* can't start a frame inside a frame *)
      set_lbp (set_rx_link_state STATE_IDLE l) w
    else if byte =? CHAR_STOP then
      (* end of frame *)
      let w := set_lbp (set_rx_link_state STATE_IDLE l) w in
      (* check the crc *)
      if negb (truthy (rx_crc l)) && (lbp_rx_buffer_length l >=? 4) then
        let data_length := u8 (lbp_rx_buffer_length l - 4) in
        let w := set_parsed (parsed w ++ [(lbp_rx_buffer l, data_length)]) w in
        parse_packet i data_length w
      else w
    else rx_store byte w
  (* or are we starting a frame *)
  else if byte =? CHAR_START then
    let l := set_lbp_rx_buffer_length 0 l in
    let l := set_rx_link_state STATE_FRAME l in
    let l := set_rx_crc 0 l in
    set_lbp l w
  else rx_store byte w.

Definition is_special (byte : Z) : bool :=
  (byte =? CHAR_STOP) || (byte =? CHAR_START) || (byte =? CHAR_ESCAPE).

(** [ISR(USART0_TX_vect)] *)
Definition USART0_TX_vect (w : world) : world :=
  let l := lbp w in
  (* if we're idling, do nothing *)
  if link_state_eqb (tx_link_state l) STATE_IDLE
     || link_state_eqb (tx_link_state l) STATE_FILLING then w
  (* if we've ended the packet *)
  else if link_state_eqb (tx_link_state l) STATE_ENDING then
    let w := UDR0_write CHAR_STOP w in
    set_lbp (set_tx_link_state STATE_IDLE (lbp w)) w
  (* if we hit the end of the data we need to write a (possibly escaped) crc *)
  else if lbp_tx_buffer_index l =? lbp_tx_buffer_length l then
    if link_state_eqb (tx_link_state l) STATE_ESCAPING then
      let w := UDR0_write (bnot8 (tx_crc l)) w in
      set_lbp (set_tx_link_state STATE_ENDING (lbp w)) w
    else if is_special (tx_crc l) then
      let w := UDR0_write CHAR_ESCAPE w in
      set_lbp (set_tx_link_state STATE_ESCAPING (lbp w)) w
    else
      let w := UDR0_write (tx_crc l) w in
      set_lbp (set_tx_link_state STATE_ENDING (lbp w)) w
  (* if this char is following an escape char *)
  else if link_state_eqb (tx_link_state l) STATE_ESCAPING then
    let w := UDR0_write
               (bnot8 (rd (lbp_tx_buffer l) (lbp_tx_buffer_index l - 1))) w in
    set_lbp (set_tx_link_state STATE_FRAME (lbp w)) w
  (* if we're sending data *)
  else
    let byte := rd (lbp_tx_buffer l) (lbp_tx_buffer_index l) in
    let l := set_lbp_tx_buffer_index (u8 (lbp_tx_buffer_index l + 1)) l in
    (* update the crc *)
    let l := set_tx_crc (crc8 byte (tx_crc l)) l in
    let w := set_lbp l w in
    (* check if we should escape *)
    if is_special byte then
      let w := UDR0_write CHAR_ESCAPE w in
      set_lbp (set_tx_link_state STATE_ESCAPING (lbp w)) w
    else UDR0_write byte w.

(** ** The firmware after reset *)

(** The values in eeprom.cpp. *)
Definition eeprom_defaults : eeprom_vars :=
  {| min_deploy_time := 500; max_deploy_time := 700;
     last_logged_deploy_time := 0; battery_empty_limit := 166;
     use_servo := 1; servo_closed_position := 0;
     servo_open_position := 255; lbp_address := 0 |}.

(** Static data as the C start-up code leaves it, the registers as
    [init_actuators] leaves them. *)
Definition boot_world : world :=
  {| flight_state := SYSTEMS_CHECK;
     buzzer_queue := {| bq_index := 0; bq_length := 0;
                        bq_queue := repeat 0 (Z.to_nat BUZZER_QUEUE_SIZE) |};
     buzzer_state := BUZZER_OFF;
     current_beep_duration := 0;
     timer_20ms := 0;
     eeprom := eeprom_defaults;
     lbp := {| rx_link_state := STATE_IDLE; rx_crc := 0;
               lbp_rx_buffer := repeat 0 (Z.to_nat LBP_BUFFER_SIZE);
               lbp_rx_buffer_length := 0;
               tx_link_state := STATE_IDLE; tx_crc := 0;
               lbp_tx_buffer := repeat 0 (Z.to_nat LBP_BUFFER_SIZE);
               lbp_tx_buffer_length := 0;
               lbp_tx_buffer_index := 0 |};
     out := {| PORTA := 0; PORTB := 0; PORTC := 0; OCR1B := 0;
               UDR0_sent := [] |};
     parsed := [] |}.

(** ** Driving the link layer *)

(** The pins at rest: arming switch open (pulled up), no vote (pulled up),
    breakwire and squib absent. *)
Definition quiet_pins : in_regs :=
  {| PINA := 0x10; PINB := 0; PINC := 0x02; ADCH := 200 |}.

(** A stream of received bytes, one receive interrupt per byte. *)
Definition receive (i : in_regs) (bytes : list Z) (w : world) : world :=
  fold_left (fun w byte => USART0_RX_vect i byte w) bytes w.

(** The transmit interrupt, taken until the transmitter is idle again (at
    most [fuel] times). *)
Fixpoint tx_drain (fuel : nat) (w : world) : world :=
  match fuel with
  | O => w
  | S fuel =>
      if link_state_eqb (tx_link_state (lbp w)) STATE_IDLE then w
      else tx_drain fuel (USART0_TX_vect w)
  end.

(** Store [bytes] into the transmit buffer from byte [k] on. *)
Fixpoint fill_reply (k : Z) (bytes : list Z) (w : world) : world :=
  match bytes with
  | [] => w
  | b :: bytes => fill_reply (k + 1) bytes (set_reply k b w)
  end.

(** An application sending a packet: claim the transmit buffer, fill in the
    three header bytes and the payload, send, and let the transmit
    interrupts run.  Nothing is sent when the buffer cannot be claimed. *)
Definition transmit (header payload : list Z) (w : world) : world :=
  let (reply, w) := lbp_get_tx_buffer w in
  if negb reply then w
  else
    let w := fill_reply 0 (header ++ payload) w in
    let w := lbp_send_message (Z.of_nat (length payload)) w in
    tx_drain 80 w.

(** What the transmit path of [w] puts on the wire for a packet: the bytes
    stored into [UDR0] from the claim of the buffer to the return to idle. *)
Definition wire_from (w : world) (header payload : list Z) : list Z :=
  drop (length (UDR0_sent (out w)))
       (UDR0_sent (out (transmit header payload w))).

(** The same for the firmware after reset. *)
Definition wire_of (header payload : list Z) : list Z :=
  wire_from boot_world header payload.

(** What the receive path of [w] hands to [parse_packet] while it takes in
    [bytes]: for every call, the packet (header and [data_length] bytes of
    payload) and [data_length]. *)
Definition delivered_to (i : in_regs) (w : world) (bytes : list Z)
    : list (list Z * Z) :=
  map (fun call => (take (Z.to_nat (3 + snd call)) (fst call), snd call))
      (drop (length (parsed w)) (parsed (receive i bytes w))).

(** The same for the firmware after reset. *)
Definition delivered (bytes : list Z) : list (list Z * Z) :=
  delivered_to quiet_pins boot_world bytes.

(** A packet survives the trip through the transmit path of [sender] and
    the receive path of [receiver]: [parse_packet] is called once, with the
    packet as sent. *)
Definition round_trip (sender receiver : world) (i : in_regs)
    (header payload : list Z) : Prop :=
  delivered_to i receiver (wire_from sender header payload)
  = [(header ++ payload, Z.of_nat (length payload))].

(** A transmitter that can take a packet, a receiver that waits for a
    frame. *)
Definition tx_ready (w : world) : Prop :=
  tx_link_state (lbp w) = STATE_IDLE /\
  length (lbp_tx_buffer (lbp w)) = Z.to_nat LBP_BUFFER_SIZE.

Definition rx_ready (w : world) : Prop :=
  rx_link_state (lbp w) = STATE_IDLE /\
  length (lbp_rx_buffer (lbp w)) = Z.to_nat LBP_BUFFER_SIZE.

(** Both packet buffers have their declared size. *)
Definition buffers_ok (w : world) : Prop :=
  length (lbp_rx_buffer (lbp w)) = Z.to_nat LBP_BUFFER_SIZE /\
  length (lbp_tx_buffer (lbp w)) = Z.to_nat LBP_BUFFER_SIZE.

(** The payload of the packet in the transmit buffer, as far as
    [lbp_tx_buffer_length] declares it. *)
Definition reply_payload (w : world) : list Z :=
  take (Z.to_nat (lbp_tx_buffer_length (lbp w) - 3))
       (drop 3 (lbp_tx_buffer (lbp w))).

(** ** The frame format *)

(** Byte stuffing of one byte. *)
Definition escape (b : Z) : list Z :=
  if is_special b then [CHAR_ESCAPE; bnot8 b] else [b].

(** The frame of a packet [data] (header and payload): START, the stuffed
    bytes, the stuffed checksum, STOP. *)
Definition frame_of (data : list Z) : list Z :=
  CHAR_START :: flat_map escape data ++ escape (crc8_run 0 data)
  ++ [CHAR_STOP].

Definition is_byte (b : Z) : Prop := 0 <= b < 256.

(** The last byte of a packet is no reserved character (true of the empty
    list). *)
Definition plain_end (data : list Z) : Prop :=
  is_special (List.last data 0) = false.

(** [w] with the variables written by the transmit interrupt replaced. *)
Definition tx_set (st : link_state) (k c : Z) (sent : list Z) (w : world)
    : world :=
  let l := set_tx_link_state st (set_lbp_tx_buffer_index k
             (set_tx_crc c (lbp w))) in
  set_out {| PORTA := PORTA (out w); PORTB := PORTB (out w);
             PORTC := PORTC (out w); OCR1B := OCR1B (out w);
             UDR0_sent := sent |} (set_lbp l w).

(** [w] with the variables written by the receive interrupt (short of
    [parse_packet]) replaced. *)
Definition rx_set (st : link_state) (len c : Z) (buf : list Z) (w : world)
    : world :=
  let l := set_rx_link_state st (set_lbp_rx_buffer_length len
             (set_rx_crc c (set_lbp_rx_buffer buf (lbp w)))) in
  set_lbp l w.

(** ** Driving the buzzer queue *)

Inductive buzzer_call := Beep (len : Z) | Tick.

Definition buzzer_step (c : buzzer_call) (w : world) : world :=
  match c with
  | Beep len => buzzer_beep len w
  | Tick => buzzer_tick w
  end.

Definition buzzer_run (calls : list buzzer_call) (w : world) : world :=
  fold_left (fun w c => buzzer_step c w) calls w.

(** The entries waiting in the circular buffer, the one being played
    first. *)
Definition pending (w : world) : list Z :=
  let q := buzzer_queue w in
  map (fun k : nat =>
         rd (bq_queue q) ((bq_index q + Z.of_nat k) mod BUZZER_QUEUE_SIZE))
      (seq 0 (Z.to_nat (bq_length q))).

(** The durations that calls of [buzzer_beep] put into the queue, in call
    order: a call counts when it changes the world. *)
Fixpoint enqueued (calls : list buzzer_call) (w : world) : list Z :=
  match calls with
  | [] => []
  | c :: calls =>
      match c with
      | Beep len =>
          if bq_length (buzzer_queue (buzzer_beep len w))
             =? bq_length (buzzer_queue w)
          then [] else [len]
      | Tick => []
      end ++ enqueued calls (buzzer_step c w)
  end.

(** The durations that [buzzer_tick] finished and removed, in the order of
    removal: the entry at [index], against which the beep was timed, when
    the tick shortens the queue. *)
Fixpoint consumed (calls : list buzzer_call) (w : world) : list Z :=
  match calls with
  | [] => []
  | c :: calls =>
      match c with
      | Tick =>
          if bq_length (buzzer_queue (buzzer_tick w))
             <? bq_length (buzzer_queue w)
          then [rd (bq_queue (buzzer_queue w)) (bq_index (buzzer_queue w))]
          else []
      | Beep _ => []
      end ++ consumed calls (buzzer_step c w)
  end.

(** What holds of the queue variables between any two calls. *)
Definition buzzer_ok (w : world) : Prop :=
  let q := buzzer_queue w in
  0 <= bq_index q < BUZZER_QUEUE_SIZE /\
  0 <= bq_length q <= BUZZER_QUEUE_SIZE /\
  length (bq_queue q) = Z.to_nat BUZZER_QUEUE_SIZE /\
  (buzzer_state w <> BUZZER_OFF -> 1 <= bq_length q).

(** ** Sample inputs *)

(** In flight, with the timer at the default [max_deploy_time]. *)
Definition launched_world : world :=
  set_timer_20ms 700 (set_flight_state LAUNCHED boot_world).

(** Armed on the pad, some time after power-up. *)
Definition armed_world : world :=
  set_timer_20ms 1234 (set_flight_state ARMED boot_world).

(** The pins with the arming switch closed and the breakwire pulled. *)
Definition launch_pins : in_regs :=
  {| PINA := 0x00; PINB := 0; PINC := 0x02; ADCH := 200 |}.

(** Nine beeps of 1 to 9 ticks, then five timer ticks: long enough for the
    first beep and its pause. *)
Definition sample_calls : list buzzer_call :=
  map Beep [1; 2; 3; 4; 5; 6; 7; 8; 9] ++ [Tick; Tick; Tick; Tick; Tick].

(** Frames as a peer puts them on the wire: START, srcinfo, destinfo, id,
    payload, checksum, STOP.  The peer has address 5 and sends to address
    0x3F. *)

(** Synchronous request with the reserved id 0x08, which has no case. *)
Definition unknown_reserved_frame : list Z :=
  [CHAR_START; 0x05; 0x3F; 0x08; 0xC2; CHAR_STOP].

(** The same request sent asynchronously. *)
Definition unknown_reserved_async_frame : list Z :=
  [CHAR_START; 0x85; 0x3F; 0x08; 0xA0; CHAR_STOP].

(** Synchronous extended identify of the reserved page 0x10. *)
Definition reserved_page_frame : list Z :=
  [CHAR_START; 0x05; 0x3F; 0x03; 0x10; 0xC8; CHAR_STOP].

(** Synchronous read of the battery voltage. *)
Definition battery_frame : list Z :=
  [CHAR_START; 0x05; 0x3F; 0x13; 0x7F; CHAR_STOP].

(** Synchronous extended identify of page 1. *)
Definition name_page_frame : list Z :=
  [CHAR_START; 0x05; 0x3F; 0x03; 0x01; 0x0B; CHAR_STOP].

(** Synchronous status request. *)
Definition status_frame : list Z :=
  [CHAR_START; 0x05; 0x3F; 0x06; 0xDD; CHAR_STOP].

(** The receiver in the middle of a frame, two bytes in. *)
Definition short_frame_world : world :=
  receive quiet_pins [CHAR_START; 0x05; 0x3F] boot_world.

(** The receiver in the middle of a frame with all 32 bytes used. *)
Definition full_frame_world : world :=
  receive quiet_pins (CHAR_START :: repeat 0x01 32) boot_world.

(** A packet of 29 plain payload bytes, the most [lbp_packet] has room
    for. *)
Definition long_header : list Z := [0x7F; 0x00; 0x24].
Definition long_payload : list Z := repeat 0x07 29.

(** The firmware with a page 1 extended identify request in the receive
    buffer, STOP still to come. *)
Definition name_request_world : world :=
  receive quiet_pins (removelast name_page_frame) boot_world.

(** The firmware in flight with a status request in the receive buffer,
    STOP still to come. *)
Definition status_request_world : world :=
  receive quiet_pins (removelast status_frame) launched_world.

(** A packet with all three reserved characters inside. *)
Definition stuffed_header : list Z := [0x7F; 0x00; 0x24].
Definition stuffed_payload : list Z :=
  [CHAR_START; CHAR_STOP; CHAR_ESCAPE; 0x01].

(** * Properties *)

(** ** Arithmetic and arrays *)

Ltac zmod := Z.to_euclidean_division_equations; lia.

Lemma truthy_true (z : Z) : truthy z = true <-> z <> 0.
Proof. unfold truthy. destruct (Z.eqb_spec z 0); simpl; split; congruence. Qed.

Lemma MASK_sets (name shift : Z) :
  0 <= shift < 8 -> Z.testbit (MASK name shift 1) shift = true.
Proof.
  intros H. unfold MASK, u8.
  change 256 with (2 ^ 8).
  rewrite Z.mod_pow2_bits_low by lia.
  rewrite Z.lor_spec, Z.shiftl_spec by lia.
  rewrite Z.sub_diag. apply orb_true_r.
Qed.

Lemma rd_wr_same (a : list Z) (k v : Z) :
  (Z.to_nat k < length a)%nat -> rd (wr a k v) k = v.
Proof.
  intros H. unfold rd, wr. rewrite list_lookup_insert_eq by exact H.
  reflexivity.
Qed.

Lemma rd_wr_other (a : list Z) (k j v : Z) :
  Z.to_nat k <> Z.to_nat j -> rd (wr a k v) j = rd a j.
Proof.
  intros H. unfold rd, wr. rewrite list_lookup_insert_ne by exact H.
  reflexivity.
Qed.

Lemma length_wr (a : list Z) (k v : Z) : length (wr a k v) = length a.
Proof. apply length_insert. Qed.

(** ** The checksum *)

Lemma crc8_self (c : Z) : crc8 c c = 0.
Proof.
  unfold crc8. rewrite Z.lxor_nilpotent. reflexivity.
Qed.

Lemma crc8_run_app (acc : Z) (xs ys : list Z) :
  crc8_run acc (xs ++ ys) = crc8_run (crc8_run acc xs) ys.
Proof. unfold crc8_run. apply fold_left_app. Qed.

Example crc8_sample :
  crc8 0x3F 0 = 0xFF /\ crc8_run 0 [0x3F; 0x00; 0x10] = 0x1C.
Proof. vm_compute. split; reflexivity. Qed.

(** C4.  Appending the cumulative CRC-8 (polynomial 0x8C, least significant
    bit first, accumulator starting at 0) of a byte sequence to that sequence
    and running the cumulative CRC over the result gives exactly 0. *)
Theorem crc8_append_self_zero (bytes : list Z) :
  crc8_run 0 (bytes ++ [crc8_run 0 bytes]) = 0.
Proof.
  rewrite crc8_run_app. cbn [crc8_run fold_left].
  apply crc8_self.
Qed.

(** ** The flight state machine *)

Lemma buzzer_beep_frame (len : Z) (w : world) :
  flight_state (buzzer_beep len w) = flight_state w /\
  timer_20ms (buzzer_beep len w) = timer_20ms w /\
  eeprom (buzzer_beep len w) = eeprom w /\
  out (buzzer_beep len w) = out w /\
  lbp (buzzer_beep len w) = lbp w.
Proof.
  unfold buzzer_beep.
  destruct (negb (bq_length (buzzer_queue w) =? BUZZER_QUEUE_SIZE));
    repeat split; reflexivity.
Qed.

(** C1.  A poll in [LAUNCHED] that reads a timer at or above
    [max_deploy_time] deploys at once, whatever the vote pin (and every
    other input) reads: in servo mode the servo compare register is set for
    [servo_open_position], in pyro mode the pyro pin is driven high; the
    timer value is written to [last_logged_deploy_time]; the state becomes
    [DEPLOYED]. *)
Theorem launched_max_time_deploys (i : in_regs) (w : world) :
  flight_state w = LAUNCHED ->
  get_timer w >= eeprom_read_safe max_deploy_time w ->
  let w' := update_state_machine i w in
  flight_state w' = DEPLOYED /\
  last_logged_deploy_time (eeprom w') = get_timer w /\
  (truthy (eeprom_read_safe use_servo w) = true ->
   out w'
   = out (set_servo_position (eeprom_read_safe servo_open_position w) w) /\
   OCR1B (out w') =
     u16 (921 + u16 (eeprom_read_safe servo_open_position w * 231) / 64)) /\
  (truthy (eeprom_read_safe use_servo w) = false ->
   out w' = out (set_pyro_state ON w) /\
   pin_level PYRO_PIN w' = true).
Proof.
  intros Hst Htime w'. subst w'.
  unfold update_state_machine. rewrite Hst.
  set (w1 := if negb (truthy (buzzer_queue_length w))
             then buzzer_beep BEEP_SHORT w else w).
  assert (Hframe : timer_20ms w1 = timer_20ms w /\ eeprom w1 = eeprom w /\
                   out w1 = out w).
  { subst w1. destruct (negb (truthy (buzzer_queue_length w))).
    - pose proof (buzzer_beep_frame BEEP_SHORT w). tauto.
    - tauto. }
  destruct Hframe as (Ht & He & Ho).
  unfold get_timer, eeprom_read_safe in *.
  rewrite Ht, He.
  replace (timer_20ms w >=? max_deploy_time (eeprom w)) with true
    by (symmetry; apply Z.geb_le; lia).
  cbn [orb].
  destruct (truthy (use_servo (eeprom w))) eqn:Hservo.
  - cbn -[u16]. rewrite Ht, Ho. repeat split; try reflexivity; discriminate.
  - cbn -[MASK Z.testbit]. rewrite Ht, Ho.
    repeat split; try reflexivity; try discriminate.
    apply MASK_sets. cbn. lia.
Qed.

Lemma launched_max_time_deploys_witness :
  let w' := update_state_machine quiet_pins launched_world in
  flight_state w' = DEPLOYED /\
  last_logged_deploy_time (eeprom w') = 700 /\
  OCR1B (out w') = 1841.
Proof.
  pose proof (launched_max_time_deploys quiet_pins launched_world) as H.
  destruct H as (Hs & Hl & Hservo & _).
  - reflexivity.
  - vm_compute. discriminate.
  - destruct (Hservo eq_refl) as [_ Ho].
    cbv zeta. rewrite Hs, Hl, Ho. repeat split; reflexivity.
Defined.

(** A poll in [ARMED] looks at the arming switch first: with the switch
    open it goes back to [PREPARATION] and never looks at the breakwire. *)
Example armed_poll_disarmed :
  truthy (is_armed quiet_pins) = false /\
  truthy (is_breakwire_connected quiet_pins) = false /\
  let w' := update_state_machine quiet_pins armed_world in
  flight_state w' = PREPARATION /\
  get_timer w' = 1234 /\
  pin_level LAUNCH_ASSERTED_PIN w' = false.
Proof. vm_compute. repeat split; reflexivity. Qed.

(** C2, as stated, fails: a poll in [ARMED] that finds the breakwire
    disconnected does not launch when the arming switch reads disarmed. *)
Lemma armed_breakwire_open_not_always_launch :
  ~ (forall (i : in_regs) (w : world),
        flight_state w = ARMED ->
        truthy (is_breakwire_connected i) = false ->
        let w' := update_state_machine i w in
        get_timer w' = 0 /\
        pin_level LAUNCH_ASSERTED_PIN w' = true /\
        flight_state w' = LAUNCHED).
Proof.
  intros H.
  specialize (H quiet_pins armed_world eq_refl eq_refl).
  destruct H as (_ & _ & H).
  vm_compute in H. discriminate H.
Qed.

(** C2, amended.  A poll in [ARMED] that finds the arming switch still
    armed and the breakwire disconnected zeroes the timer, drives the
    launch-asserted pin high and enters [LAUNCHED]. *)
Theorem armed_breakwire_open_launches (i : in_regs) (w : world) :
  flight_state w = ARMED ->
  truthy (is_armed i) = true ->
  truthy (is_breakwire_connected i) = false ->
  let w' := update_state_machine i w in
  get_timer w' = 0 /\
  pin_level LAUNCH_ASSERTED_PIN w' = true /\
  flight_state w' = LAUNCHED.
Proof.
  intros Hst Harmed Hwire w'. subst w'.
  unfold update_state_machine. rewrite Hst, Harmed, Hwire.
  cbn -[MASK Z.testbit]. repeat split.
  apply MASK_sets. cbn. lia.
Qed.

Lemma armed_breakwire_open_launches_witness :
  let w' := update_state_machine launch_pins armed_world in
  get_timer w' = 0 /\
  pin_level LAUNCH_ASSERTED_PIN w' = true /\
  flight_state w' = LAUNCHED.
Proof.
  apply (armed_breakwire_open_launches launch_pins armed_world);
    reflexivity.
Defined.

(** ** The buzzer queue *)

Lemma buzzer_beep_ok (len : Z) (w : world) :
  buzzer_ok w -> buzzer_ok (buzzer_beep len w).
Proof.
  unfold buzzer_ok, buzzer_beep, BUZZER_QUEUE_SIZE, u8.
  intros (Hi & Hl & Hq & Hs).
  destruct (Z.eqb_spec (bq_length (buzzer_queue w)) 8) as [E | E]; cbn.
  - auto.
  - rewrite length_wr. repeat split; try lia; try zmod.
Qed.

Lemma buzzer_beep_full (len : Z) (w : world) :
  buzzer_queue_length w = BUZZER_QUEUE_SIZE -> buzzer_beep len w = w.
Proof.
  unfold buzzer_queue_length, buzzer_beep. intros ->. reflexivity.
Qed.

Lemma pending_beep (len : Z) (w : world) :
  buzzer_ok w -> buzzer_queue_length w <> BUZZER_QUEUE_SIZE ->
  pending (buzzer_beep len w) = pending w ++ [len] /\
  bq_length (buzzer_queue (buzzer_beep len w)) = bq_length (buzzer_queue w) + 1.
Proof.
  unfold buzzer_ok, buzzer_queue_length, pending, buzzer_beep,
    BUZZER_QUEUE_SIZE, u8.
  intros (Hi & Hl & Hq & Hs) Hn.
  destruct (Z.eqb_spec (bq_length (buzzer_queue w)) 8) as [E | E];
    [contradiction |].
  cbn -[Z.to_nat Z.of_nat seq].
  set (n := bq_length (buzzer_queue w)) in *.
  set (ix := bq_index (buzzer_queue w)) in *.
  replace ((n + 1) mod 256) with (n + 1) by zmod.
  split; [| reflexivity].
  replace (Z.to_nat (n + 1)) with (S (Z.to_nat n)) by lia.
  rewrite seq_S, map_app. cbn [map Nat.add].
  f_equal.
  - apply map_ext_in. intros k Hk. apply in_seq in Hk.
    apply rd_wr_other. zmod.
  - rewrite Z2Nat.id by lia. f_equal. apply rd_wr_same. rewrite Hq. zmod.
Qed.

Lemma buzzer_tick_cases (w : world) :
  buzzer_ok w ->
  buzzer_ok (buzzer_tick w) /\
  (buzzer_queue (buzzer_tick w) = buzzer_queue w \/
   1 <= bq_length (buzzer_queue w) /\
   buzzer_queue (buzzer_tick w) =
     {| bq_index := (bq_index (buzzer_queue w) + 1) mod BUZZER_QUEUE_SIZE;
        bq_length := bq_length (buzzer_queue w) - 1;
        bq_queue := bq_queue (buzzer_queue w) |}).
Proof.
  unfold buzzer_ok, buzzer_tick, BUZZER_QUEUE_SIZE, u8.
  intros (Hi & Hl & Hq & Hs).
  destruct (buzzer_state w) eqn:Hphase.
  - (* off *)
    destruct (truthy (bq_length (buzzer_queue w))) eqn:Hlen; cbn.
    + apply truthy_true in Hlen. split; [| left; reflexivity].
      repeat split; try lia.
    + split; [| left; reflexivity]. rewrite Hphase. repeat split; try lia.
      intros []. reflexivity.
  - (* on *)
    assert (H1 : 1 <= bq_length (buzzer_queue w)) by (apply Hs; discriminate).
    cbn.
    destruct (_ >? _); cbn.
    + split; [| left; reflexivity]. repeat split; try lia.
    + split; [| left; reflexivity]. rewrite Hphase. repeat split; try lia.
  - (* cooldown *)
    assert (H1 : 1 <= bq_length (buzzer_queue w)) by (apply Hs; discriminate).
    cbn.
    destruct (_ >? _); cbn.
    + replace ((bq_length (buzzer_queue w) - 1) mod 256)
        with (bq_length (buzzer_queue w) - 1) by zmod.
      destruct (truthy (bq_length (buzzer_queue w) - 1)) eqn:Hlen; cbn.
      * apply truthy_true in Hlen. split; [| right; split; [lia | reflexivity]].
        repeat split; try lia; try zmod.
      * split; [| right; split; [lia | reflexivity]].
        repeat split; try lia; try zmod. intros []. reflexivity.
    + split; [| left; reflexivity]. rewrite Hphase. repeat split; try lia.
Qed.

Lemma pending_pop (w : world) (q' : buzzer_queue_type) :
  buzzer_ok w ->
  1 <= bq_length (buzzer_queue w) ->
  q' = {| bq_index := (bq_index (buzzer_queue w) + 1) mod BUZZER_QUEUE_SIZE;
          bq_length := bq_length (buzzer_queue w) - 1;
          bq_queue := bq_queue (buzzer_queue w) |} ->
  pending w =
    rd (bq_queue (buzzer_queue w)) (bq_index (buzzer_queue w))
    :: pending (set_buzzer_queue q' w).
Proof.
  unfold buzzer_ok, pending, BUZZER_QUEUE_SIZE.
  intros (Hi & Hl & Hq & Hs) H1 ->.
  cbn -[Z.to_nat Z.of_nat seq].
  set (n := bq_length (buzzer_queue w)) in *.
  set (ix := bq_index (buzzer_queue w)) in *.
  replace (Z.to_nat n) with (S (Z.to_nat (n - 1))) by lia.
  cbn [seq map]. f_equal.
  - f_equal. zmod.
  - rewrite <- seq_shift, map_map.
    apply map_ext. intros k. f_equal. zmod.
Qed.

Lemma pending_set_phase (w w' : world) :
  buzzer_queue w' = buzzer_queue w -> pending w' = pending w.
Proof. unfold pending. intros ->. reflexivity. Qed.

Lemma buzzer_fifo (calls : list buzzer_call) (w : world) :
  buzzer_ok w ->
  buzzer_ok (buzzer_run calls w) /\
  pending w ++ enqueued calls w
  = consumed calls w ++ pending (buzzer_run calls w).
Proof.
  revert w. induction calls as [| c calls IH]; intros w Hok.
  - cbn. rewrite app_nil_r. auto.
  - cbn [buzzer_run fold_left enqueued consumed].
    change (fold_left _ calls (buzzer_step c w))
      with (buzzer_run calls (buzzer_step c w)).
    destruct c as [len |]; cbn [buzzer_step].
    + pose proof (buzzer_beep_ok len w Hok) as Hok'.
      destruct (IH _ Hok') as [Hr IHeq]. split; [exact Hr |].
      cbn [app]. rewrite <- IHeq.
      destruct (Z.eq_dec (buzzer_queue_length w) BUZZER_QUEUE_SIZE) as [E | E].
      * rewrite (buzzer_beep_full len w E), Z.eqb_refl. reflexivity.
      * destruct (pending_beep len w Hok E) as [Hp Hl].
        rewrite Hp, Hl.
        replace (_ =? _) with false by (symmetry; apply Z.eqb_neq; lia).
        cbn [app]. rewrite <- app_assoc. reflexivity.
    + destruct (buzzer_tick_cases w Hok) as [Hok' Hq].
      destruct (IH _ Hok') as [Hr IHeq]. split; [exact Hr |].
      rewrite <- app_assoc, <- IHeq.
      destruct Hq as [Hq | [H1 Hq]].
      * rewrite Hq, Z.ltb_irrefl. cbn [app].
        rewrite (pending_set_phase w (buzzer_tick w) Hq). reflexivity.
      * rewrite Hq. cbn [bq_length].
        replace (_ <? _) with true by (symmetry; apply Z.ltb_lt; lia).
        cbn [app].
        rewrite (pending_pop w _ Hok H1 eq_refl).
        rewrite (pending_set_phase (set_buzzer_queue _ w) (buzzer_tick w))
          by (rewrite Hq; reflexivity).
        reflexivity.
Qed.

Lemma boot_buzzer_ok : buzzer_ok boot_world.
Proof.
  unfold buzzer_ok, boot_world, BUZZER_QUEUE_SIZE.
  cbn [buzzer_queue bq_index bq_length bq_queue buzzer_state].
  repeat split; try lia. intros H. exfalso. apply H. reflexivity.
Qed.

Example buzzer_sample_run :
  let w := buzzer_run sample_calls boot_world in
  enqueued sample_calls boot_world = [1; 2; 3; 4; 5; 6; 7; 8] /\
  consumed sample_calls boot_world = [1] /\
  pending w = [2; 3; 4; 5; 6; 7; 8] /\
  buzzer_queue_length w = 7 /\
  bq_queue (buzzer_queue w) = [1; 2; 3; 4; 5; 6; 7; 8].
Proof. vm_compute. repeat split; reflexivity. Qed.

(** C5.  Over any sequence of [buzzer_beep] calls and [buzzer_tick] steps,
    started from a consistent queue: the count stays at most 8; a
    [buzzer_beep] while the count is 8 changes nothing; and the queue is
    first-in first-out: what was waiting at the start followed by what was
    put in, in call order, is what the ticks removed, in removal order
    (each entry removed being the one that was played), followed by what
    is still waiting. *)
Theorem buzzer_queue_bounded_fifo (calls : list buzzer_call) (len : Z)
    (w0 : world) :
  buzzer_ok w0 ->
  let w := buzzer_run calls w0 in
  buzzer_queue_length w <= BUZZER_QUEUE_SIZE /\
  (buzzer_queue_length w = BUZZER_QUEUE_SIZE -> buzzer_beep len w = w) /\
  pending w0 ++ enqueued calls w0 = consumed calls w0 ++ pending w.
Proof.
  intros Hok w. subst w.
  destruct (buzzer_fifo calls w0 Hok) as [Hok' Hfifo].
  split; [| split].
  - destruct Hok' as (_ & Hl & _). apply Hl.
  - apply buzzer_beep_full.
  - exact Hfifo.
Qed.

Lemma buzzer_queue_bounded_fifo_witness :
  let w := buzzer_run sample_calls boot_world in
  buzzer_queue_length w <= BUZZER_QUEUE_SIZE /\
  (buzzer_queue_length w = BUZZER_QUEUE_SIZE -> buzzer_beep 9 w = w) /\
  pending boot_world ++ enqueued sample_calls boot_world
  = consumed sample_calls boot_world ++ pending w.
Proof.
  apply (buzzer_queue_bounded_fifo sample_calls 9 boot_world).
  exact boot_buzzer_ok.
Defined.

(** ** The link layer, receive direction *)

Ltac open_world w :=
  destruct w as [fs bq bs cbd t ee [rxs rxc rxb rxl txs txc txb txl txi] o p].

Ltac rx_unfold :=
  cbv [USART0_RX_vect rx_store rx_set set_lbp set_parsed
       set_rx_link_state set_rx_crc set_lbp_rx_buffer
       set_lbp_rx_buffer_length
       lbp out tx_link_state tx_crc lbp_tx_buffer lbp_tx_buffer_length
       lbp_tx_buffer_index
       rx_link_state rx_crc lbp_rx_buffer lbp_rx_buffer_length
       flight_state buzzer_queue buzzer_state current_beep_duration
       timer_20ms eeprom parsed
       link_state_eqb] in *.

(** C6.  On STOP in [STATE_FRAME] with a checksum accumulator other than 0
    or fewer than 4 bytes in the buffer, and on a data byte (a plain byte in
    [STATE_FRAME], any byte in [STATE_ESCAPING]) when the buffer already
    holds 32 bytes, the receive interrupt only puts the receiver back into
    [STATE_IDLE]: [parse_packet] is not called, nothing is sent and the
    transmit side is not touched.  This holds in every state of the
    firmware, hence at every point of every byte stream. *)
Theorem rx_bad_frames_dropped (i : in_regs) (byte : Z) (w : world) :
  (rx_link_state (lbp w) = STATE_FRAME ->
   rx_crc (lbp w) <> 0 \/ lbp_rx_buffer_length (lbp w) < 4 ->
   let w' := USART0_RX_vect i CHAR_STOP w in
   w' = set_lbp (set_rx_link_state STATE_IDLE (lbp w)) w /\
   rx_link_state (lbp w') = STATE_IDLE /\
   parsed w' = parsed w /\
   UDR0_sent (out w') = UDR0_sent (out w) /\
   tx_link_state (lbp w') = tx_link_state (lbp w)) /\
  (lbp_rx_buffer_length (lbp w) = LBP_BUFFER_SIZE ->
   rx_link_state (lbp w) = STATE_ESCAPING \/
   rx_link_state (lbp w) = STATE_FRAME /\ is_special byte = false ->
   let w' := USART0_RX_vect i byte w in
   w' = set_lbp (set_rx_link_state STATE_IDLE (lbp w)) w /\
   rx_link_state (lbp w') = STATE_IDLE /\
   parsed w' = parsed w /\
   UDR0_sent (out w') = UDR0_sent (out w) /\
   tx_link_state (lbp w') = tx_link_state (lbp w)).
Proof.
  split.
  - intros Hst Hbad w'.
    assert (E : w' = set_lbp (set_rx_link_state STATE_IDLE (lbp w)) w).
    { subst w'. unfold USART0_RX_vect. rewrite Hst. cbn [link_state_eqb].
      change (CHAR_STOP =? CHAR_ESCAPE) with false.
      change (CHAR_STOP =? CHAR_START) with false.
      change (CHAR_STOP =? CHAR_STOP) with true. cbv iota.
      replace (negb (truthy (rx_crc (lbp w)))
               && (lbp_rx_buffer_length (lbp w) >=? 4)) with false;
        [reflexivity |].
      symmetry. apply andb_false_iff.
      destruct Hbad as [Hcrc | Hlen].
      - left. apply negb_false_iff, truthy_true, Hcrc.
      - right. rewrite Z.geb_leb. apply Z.leb_gt. lia. }
    rewrite E. repeat split.
  - intros Hfull Hst w'.
    assert (E : w' = set_lbp (set_rx_link_state STATE_IDLE (lbp w)) w).
    { subst w'. unfold USART0_RX_vect.
      destruct Hst as [Hst | [Hst Hsp]]; rewrite Hst; cbn [link_state_eqb].
      - unfold rx_store.
        cbn [lbp set_lbp set_rx_link_state lbp_rx_buffer_length].
        rewrite Hfull, Z.eqb_refl. cbn. reflexivity.
      - unfold is_special in Hsp.
        apply orb_false_iff in Hsp as [Hsp He].
        apply orb_false_iff in Hsp as [Hp Hs].
        rewrite He, Hs, Hp. unfold rx_store. rewrite Hfull, Z.eqb_refl.
        reflexivity. }
    rewrite E. repeat split.
Qed.

Lemma rx_bad_frames_dropped_witness :
  (let w' := USART0_RX_vect quiet_pins CHAR_STOP short_frame_world in
   rx_link_state (lbp w') = STATE_IDLE /\ parsed w' = parsed short_frame_world)
  /\
  (let w' := USART0_RX_vect quiet_pins 0x07 full_frame_world in
   rx_link_state (lbp w') = STATE_IDLE /\ parsed w' = parsed full_frame_world).
Proof.
  split.
  - destruct (rx_bad_frames_dropped quiet_pins 0 short_frame_world)
      as [H _].
    destruct H as (_ & Hidle & Hparsed & _).
    + reflexivity.
    + right. vm_compute. reflexivity.
    + split; [exact Hidle | exact Hparsed].
  - destruct (rx_bad_frames_dropped quiet_pins 0x07 full_frame_world)
      as [_ H].
    destruct H as (_ & Hidle & Hparsed & _).
    + reflexivity.
    + right. split; reflexivity.
    + split; [exact Hidle | exact Hparsed].
Defined.

(** In [STATE_IDLE] a byte other than START goes the way of a data byte:
    the handler has no branch for it and runs into the code that stores a
    byte. *)
Lemma rx_idle_byte_falls_through (i : in_regs) (byte : Z) (w : world) :
  rx_link_state (lbp w) = STATE_IDLE ->
  byte <> CHAR_START ->
  USART0_RX_vect i byte w = rx_store byte w.
Proof.
  intros Hst Hbyte. unfold USART0_RX_vect. rewrite Hst.
  cbn [link_state_eqb]. apply Z.eqb_neq in Hbyte. rewrite Hbyte.
  reflexivity.
Qed.

(** C8 fails on the code.  After reset the receiver is idle; the byte 0x41
    leaves it idle, but is stored as byte 0 of the receive buffer, the
    buffer length becomes 1 and the checksum accumulator 0x18. *)
Theorem rx_idle_byte_is_stored :
  let w := USART0_RX_vect quiet_pins 0x41 boot_world in
  rx_link_state (lbp boot_world) = STATE_IDLE /\
  rx_link_state (lbp w) = STATE_IDLE /\
  lbp_rx_buffer_length (lbp boot_world) = 0 /\
  lbp_rx_buffer_length (lbp w) = 1 /\
  rd (lbp_rx_buffer (lbp boot_world)) 0 = 0 /\
  rd (lbp_rx_buffer (lbp w)) 0 = 0x41 /\
  rx_crc (lbp boot_world) = 0 /\
  rx_crc (lbp w) = 0x18.
Proof. vm_compute. repeat split; reflexivity. Qed.

(** ** The packet dispatcher *)

Ltac break_if :=
  match goal with
  | |- context [if ?c then _ else _] => destruct c
  end.

Lemma parsed_lbp_handler (i : in_regs) (data_length : Z) (w : world) :
  parsed (lbp_handler i data_length w) = parsed w.
Proof.
  unfold lbp_handler, handler_set16, handler_set8, handler_get16,
    handler_get8.
  repeat first [reflexivity | break_if].
Qed.

Lemma parsed_copy_name (name : list Z) :
  forall (temp : Z) (w : world),
    parsed (snd (copy_name name temp w)) = parsed w.
Proof.
  induction name as [| c name IH]; intros temp w; cbn [copy_name].
  - reflexivity.
  - destruct (truthy c); [| reflexivity]. rewrite IH. reflexivity.
Qed.

Lemma parsed_parse_packet (i : in_regs) (data_length : Z) (w : world) :
  parsed (parse_packet i data_length w) = parsed w.
Proof.
  unfold parse_packet, lbp_get_tx_buffer.
  destruct (link_state_eqb (tx_link_state (lbp w)) STATE_IDLE);
    [| reflexivity].
  cbv iota beta. cbn [negb].
  repeat first
    [ reflexivity
    | rewrite parsed_lbp_handler
    | match goal with
      | |- context [copy_name ?n ?t ?v] =>
          let H := fresh in
          pose proof (parsed_copy_name n t v) as H;
          destruct (copy_name n t v); cbn [snd] in H;
          change (parsed (lbp_send_message ?x ?y)) with (parsed y);
          rewrite H
      end
    | break_if ].
Qed.

(** What the packet accessors see after a write to either buffer. *)
Section Frame.
Variables (k v : Z) (w : world).

Lemma rx_buffer_set_reply :
  lbp_rx_buffer (lbp (set_reply k v w)) = lbp_rx_buffer (lbp w).
Proof. reflexivity. Qed.

Lemma tx_buffer_set_reply :
  lbp_tx_buffer (lbp (set_reply k v w)) = wr (lbp_tx_buffer (lbp w)) k v.
Proof. reflexivity. Qed.

Lemma rx_buffer_set_packet :
  lbp_rx_buffer (lbp (set_packet k v w)) = wr (lbp_rx_buffer (lbp w)) k v.
Proof. reflexivity. Qed.

Lemma tx_buffer_set_packet :
  lbp_tx_buffer (lbp (set_packet k v w)) = lbp_tx_buffer (lbp w).
Proof. reflexivity. Qed.

Lemma flight_state_set_reply :
  flight_state (set_reply k v w) = flight_state w.
Proof. reflexivity. Qed.

Lemma flight_state_set_packet :
  flight_state (set_packet k v w) = flight_state w.
Proof. reflexivity. Qed.

Lemma out_set_reply : out (set_reply k v w) = out w.
Proof. reflexivity. Qed.

Lemma out_set_packet : out (set_packet k v w) = out w.
Proof. reflexivity. Qed.

Lemma tx_link_state_set_reply :
  tx_link_state (lbp (set_reply k v w)) = tx_link_state (lbp w).
Proof. reflexivity. Qed.

Lemma tx_link_state_set_packet :
  tx_link_state (lbp (set_packet k v w)) = tx_link_state (lbp w).
Proof. reflexivity. Qed.
End Frame.

Section FrameState.
Variables (st : link_state) (w : world).

Lemma rx_buffer_set_tx_state :
  lbp_rx_buffer (lbp (set_lbp (set_tx_link_state st (lbp w)) w))
  = lbp_rx_buffer (lbp w).
Proof. reflexivity. Qed.

Lemma tx_buffer_set_tx_state :
  lbp_tx_buffer (lbp (set_lbp (set_tx_link_state st (lbp w)) w))
  = lbp_tx_buffer (lbp w).
Proof. reflexivity. Qed.

Lemma flight_state_set_tx_state :
  flight_state (set_lbp (set_tx_link_state st (lbp w)) w) = flight_state w.
Proof. reflexivity. Qed.

Lemma out_set_tx_state :
  out (set_lbp (set_tx_link_state st (lbp w)) w) = out w.
Proof. reflexivity. Qed.
End FrameState.

Section FrameSend.
Variables (n : Z) (w : world).

Lemma tx_link_state_send :
  tx_link_state (lbp (lbp_send_message n w)) = STATE_FRAME.
Proof. reflexivity. Qed.

Lemma tx_length_send :
  lbp_tx_buffer_length (lbp (lbp_send_message n w)) = u8 (n + 3).
Proof. reflexivity. Qed.

Lemma tx_buffer_send :
  lbp_tx_buffer (lbp (lbp_send_message n w)) = lbp_tx_buffer (lbp w).
Proof. reflexivity. Qed.

Lemma rx_buffer_send :
  lbp_rx_buffer (lbp (lbp_send_message n w)) = lbp_rx_buffer (lbp w).
Proof. reflexivity. Qed.

Lemma sent_send :
  UDR0_sent (out (lbp_send_message n w)) = UDR0_sent (out w) ++ [CHAR_START].
Proof. reflexivity. Qed.

Lemma tx_link_state_discard :
  tx_link_state (lbp (lbp_discard_message w)) = STATE_IDLE.
Proof. reflexivity. Qed.

Lemma out_discard : out (lbp_discard_message w) = out w.
Proof. reflexivity. Qed.
End FrameSend.

Create Rewrite HintDb lbp.

#[local] Hint Rewrite
  rx_buffer_set_reply tx_buffer_set_reply rx_buffer_set_packet
  tx_buffer_set_packet flight_state_set_reply flight_state_set_packet
  out_set_reply out_set_packet tx_link_state_set_reply
  tx_link_state_set_packet rx_buffer_set_tx_state tx_buffer_set_tx_state
  flight_state_set_tx_state out_set_tx_state tx_link_state_send
  tx_length_send tx_buffer_send rx_buffer_send sent_send
  tx_link_state_discard out_discard length_wr : lbp.

(** Express everything through the two buffers. *)
Ltac to_buffers :=
  unfold LBP_TYPE, LBP_SRC_ADDR, LBP_SEQNUM, packet_srcinfo, packet_destinfo,
    packet_id, packet_data, reply_srcinfo, reply_destinfo, reply_id,
    reply_data, set_reply_srcinfo, set_reply_destinfo, set_reply_id,
    set_reply_data, set_packet_srcinfo, set_packet_id, lbp_state_error,
    lbp_state_armed, buffers_ok in *;
  autorewrite with lbp in *.

(** Enter [parse_packet] with the transmit buffer free. *)
Ltac enter_parse_packet Hidle :=
  unfold parse_packet, lbp_get_tx_buffer;
  rewrite Hidle; cbn [link_state_eqb negb]; cbv beta iota zeta;
  to_buffers.

(** [Z.to_nat k < length buffer] for a literal [k], from the declared
    size of the buffer. *)
Ltac in_buffer :=
  rewrite ?length_wr;
  match goal with
  | H : length ?b = _ |- (_ < length ?b)%nat => rewrite H
  end;
  apply Nat.ltb_lt; reflexivity.

Ltac rd_wr :=
  repeat first
    [ rewrite rd_wr_same by in_buffer
    | rewrite rd_wr_other by (vm_compute; lia) ].

Lemma lbp_state_armed_spec (w : world) :
  lbp_state_armed w <> 0 <->
  flight_state w = ARMED \/ flight_state w = LAUNCHED \/
  flight_state w = DEPLOYED.
Proof.
  unfold lbp_state_armed.
  destruct (flight_state w); cbn; split; intros H;
    try (exfalso; apply H; reflexivity); try discriminate;
    try (destruct H as [H | [H | H]]; discriminate); tauto.
Qed.

Lemma lbp_state_error_spec (w : world) :
  lbp_state_error w <> 0 <-> flight_state w = ERROR.
Proof.
  unfold lbp_state_error.
  destruct (flight_state w); split; intros H;
    try (exfalso; apply H; reflexivity); try discriminate; reflexivity.
Qed.

(** C10.  [lbp_state_armed] is nonzero exactly in [ARMED], [LAUNCHED] and
    [DEPLOYED], [lbp_state_error] exactly in [ERROR]; and the byte that
    answers a status request has bit 0 set exactly in [ARMED], [LAUNCHED]
    and [DEPLOYED] (so also after launch and after deployment) and bit 2
    exactly in [ERROR]. *)
Theorem status_reply_flags (i : in_regs) (data_length : Z) (w : world) :
  buffers_ok w ->
  tx_link_state (lbp w) = STATE_IDLE ->
  LBP_TYPE w <> LBP_REPLY ->
  packet_id w = LBP_STATUS_REQUEST ->
  (lbp_state_armed w <> 0 <->
   flight_state w = ARMED \/ flight_state w = LAUNCHED \/
   flight_state w = DEPLOYED) /\
  (lbp_state_error w <> 0 <-> flight_state w = ERROR) /\
  let w' := parse_packet i data_length w in
  tx_link_state (lbp w') = STATE_FRAME /\
  lbp_tx_buffer_length (lbp w') = 1 + 3 /\
  (Z.testbit (reply_data 0 w') 0 = true <->
   flight_state w = ARMED \/ flight_state w = LAUNCHED \/
   flight_state w = DEPLOYED) /\
  (Z.testbit (reply_data 0 w') 2 = true <-> flight_state w = ERROR).
Proof.
  intros Hbuf Hidle Htype Hid.
  split; [apply lbp_state_armed_spec |].
  split; [apply lbp_state_error_spec |].
  intros w'. subst w'.
  enter_parse_packet Hidle. destruct Hbuf as [Hrx Htx].
  apply Z.eqb_neq in Htype. rewrite Htype, Hid.
  change (LBP_STATUS_REQUEST <? 16) with true.
  change (LBP_STATUS_REQUEST =? LBP_NACK) with false.
  change (LBP_STATUS_REQUEST =? LBP_IDENTIFY) with false.
  change (LBP_STATUS_REQUEST =? LBP_EXTENDED_IDENTIFY) with false.
  change (LBP_STATUS_REQUEST =? LBP_NETWORK_DISCOVERY) with false.
  change (LBP_STATUS_REQUEST =? LBP_STATUS_REQUEST) with true.
  cbv iota.
  autorewrite with lbp.
  split; [reflexivity |]. split; [reflexivity |].
  rd_wr.
  destruct (flight_state w); cbn; repeat split; intros H;
    try discriminate; try tauto;
    try (destruct H as [H | [H | H]]; discriminate).
Qed.

Lemma status_reply_flags_witness :
  let w' := parse_packet quiet_pins 0 status_request_world in
  tx_link_state (lbp w') = STATE_FRAME /\
  Z.testbit (reply_data 0 w') 0 = true.
Proof.
  destruct (status_reply_flags quiet_pins 0 status_request_world)
    as (_ & _ & Hframe & _ & Harmed & _).
  - split; reflexivity.
  - reflexivity.
  - vm_compute. discriminate.
  - reflexivity.
  - split; [exact Hframe |].
    apply Harmed. right. left. reflexivity.
Defined.


Lemma wr_middle (pre post : list Z) (o b : Z) :
  wr (pre ++ o :: post) (Z.of_nat (length pre)) b = pre ++ b :: post.
Proof.
  unfold wr. rewrite Nat2Z.id.
  rewrite insert_app_r_alt by lia.
  rewrite Nat.sub_diag. reflexivity.
Qed.

Lemma fill_reply_spec (bytes : list Z) :
  forall (pre old post : list Z) (w : world),
    lbp_tx_buffer (lbp w) = pre ++ old ++ post ->
    length old = length bytes ->
    fill_reply (Z.of_nat (length pre)) bytes w
    = set_lbp (set_lbp_tx_buffer (pre ++ bytes ++ post) (lbp w)) w.
Proof.
  induction bytes as [| b rest IH]; intros pre old post w Hbuf Hold.
  - destruct old; [| discriminate]. cbn [fill_reply app] in *.
    rewrite <- Hbuf. destruct w as [? ? ? ? ? ? [] ? ?]. reflexivity.
  - destruct old as [| o old]; [discriminate |].
    cbn [length] in Hold. injection Hold as Hold.
    cbn [fill_reply].
    replace (Z.of_nat (length pre) + 1) with (Z.of_nat (length (pre ++ [b])))
      by (rewrite length_app; cbn [length]; lia).
    rewrite (IH (pre ++ [b]) old post).
    + rewrite <- app_assoc. reflexivity.
    + unfold set_reply. cbn [lbp set_lbp lbp_tx_buffer set_lbp_tx_buffer].
      rewrite Hbuf. cbn [app]. rewrite wr_middle, <- app_assoc. reflexivity.
    + exact Hold.
Qed.

(** [fill_reply] overwrites a stretch of the transmit buffer and nothing
    else. *)
Lemma fill_reply_buffer (bytes : list Z) (k : nat) (w : world) :
  (k + length bytes <= length (lbp_tx_buffer (lbp w)))%nat ->
  fill_reply (Z.of_nat k) bytes w
  = set_lbp (set_lbp_tx_buffer
               (take k (lbp_tx_buffer (lbp w)) ++ bytes
                ++ drop (k + length bytes) (lbp_tx_buffer (lbp w)))
               (lbp w)) w.
Proof.
  intros Hfit.
  set (B := lbp_tx_buffer (lbp w)) in *.
  assert (Hk : length (take k B) = k) by (rewrite length_take; lia).
  rewrite <- Hk at 1.
  apply fill_reply_spec with (old := take (length bytes) (drop k B)).
  - fold B. rewrite <- drop_drop, !take_drop. reflexivity.
  - rewrite length_take, length_drop. lia.
Qed.

Lemma copy_name_spec (chars : list Z) :
  forall (temp : Z) (w : world),
    Forall (fun c => c <> 0) chars ->
    0 <= temp ->
    temp + Z.of_nat (length chars) < 256 ->
    copy_name (chars ++ [0]) temp w
    = (temp + Z.of_nat (length chars), fill_reply (3 + temp) chars w).
Proof.
  induction chars as [| c chars IH]; intros temp w Hchars Htemp Hmax.
  - cbn. rewrite Z.add_0_r. reflexivity.
  - apply Forall_cons in Hchars as [Hc Hchars].
    cbn [app copy_name fill_reply length] in *.
    apply truthy_true in Hc. rewrite Hc.
    replace (u8 (temp + 1)) with (temp + 1)
      by (unfold u8; rewrite Z.mod_small; lia).
    rewrite IH by (try assumption; lia).
    unfold set_reply_data.
    f_equal; [lia | f_equal; lia].
Qed.

Lemma name_chars :
  c_chars LBP_EXTENDED_IDENTIFY_NAME = [83; 82; 80; 32; 86; 48; 46; 48; 32].
Proof. reflexivity. Qed.

(** C9.  A synchronous extended identify request for page 1, with the
    transmit buffer free, starts a reply whose declared payload length is
    the number of characters of the name less one and whose payload is the
    name without its last character: "SRP V0.0" for the name "SRP V0.0 ". *)
Theorem extended_identify_page_1 (i : in_regs) (data_length : Z) (w : world) :
  buffers_ok w ->
  tx_link_state (lbp w) = STATE_IDLE ->
  LBP_TYPE w = LBP_SYNC ->
  packet_id w = LBP_EXTENDED_IDENTIFY ->
  1 <= data_length ->
  packet_data 0 w = 1 ->
  let name := c_chars LBP_EXTENDED_IDENTIFY_NAME in
  let w' := parse_packet i data_length w in
  tx_link_state (lbp w') = STATE_FRAME /\
  UDR0_sent (out w') = UDR0_sent (out w) ++ [CHAR_START] /\
  lbp_tx_buffer_length (lbp w') = (Z.of_nat (length name) - 1) + 3 /\
  reply_payload w' = removelast name /\
  reply_payload w' = c_chars "SRP V0.0".
Proof.
  intros Hbuf Hidle Htype Hid Hlen Hpage name w'. subst name w'.
  unfold reply_payload.
  enter_parse_packet Hidle. destruct Hbuf as [Hrx Htx].
  rewrite Htype, Hid.
  change (LBP_SYNC =? LBP_REPLY) with false.
  change (LBP_EXTENDED_IDENTIFY <? 16) with true.
  change (LBP_EXTENDED_IDENTIFY =? LBP_NACK) with false.
  change (LBP_EXTENDED_IDENTIFY =? LBP_IDENTIFY) with false.
  change (LBP_EXTENDED_IDENTIFY =? LBP_EXTENDED_IDENTIFY) with true.
  change (LBP_SYNC =? LBP_SYNC) with true.
  cbn [negb]. cbv iota.
  replace (data_length <? 1) with false by (symmetry; apply Z.ltb_ge; lia).
  rewrite rd_wr_other by (vm_compute; lia).
  rewrite Hpage.
  change (1 >=? 16) with false. change (1 =? 0) with false.
  change (1 =? 1) with true. cbv iota.
  unfold c_string. rewrite name_chars.
  rewrite copy_name_spec;
    [| repeat (apply Forall_cons; split; [lia |]); apply Forall_nil_2
     | lia | cbn; lia].
  cbv iota. change (3 + 0) with (Z.of_nat 3).
  rewrite fill_reply_buffer
    by (autorewrite with lbp; rewrite Htx; unfold LBP_BUFFER_SIZE; cbn; lia).
  autorewrite with lbp.
  cbn [lbp out set_lbp set_lbp_tx_buffer lbp_tx_buffer].
  rewrite drop_app_length'
    by (rewrite length_take, !length_wr, Htx; reflexivity).
  repeat split; reflexivity.
Qed.

Lemma extended_identify_page_1_witness :
  let w' := parse_packet quiet_pins 1 name_request_world in
  lbp_tx_buffer_length (lbp w') = 8 + 3 /\
  reply_payload w' = c_chars "SRP V0.0".
Proof.
  destruct (extended_identify_page_1 quiet_pins 1 name_request_world)
    as (_ & _ & Hlen & _ & Hpayload).
  - split; reflexivity.
  - reflexivity.
  - reflexivity.
  - reflexivity.
  - lia.
  - reflexivity.
  - split; [exact Hlen | exact Hpayload].
Defined.

(** The request and its answer on the wire: the payload is "SRP V0.0", its
    'P' (0x50, the escape character) stuffed. *)
Example name_page_on_the_wire :
  let w := tx_drain 80 (receive quiet_pins name_page_frame boot_world) in
  UDR0_sent (out w)
  = [CHAR_START; 0x3F; 0x05; 0x00;
     83; 82; CHAR_ESCAPE; bnot8 80; 32; 86; 48; 46; 48; 0xE8; CHAR_STOP].
Proof. vm_compute. reflexivity. Qed.

(** ** Reserved ids without a case *)

(** The default case for a synchronous request: a reply of no payload is
    started, but Nack and the reply type are written into the received
    packet; the id byte of the reply keeps whatever the transmit buffer
    held. *)
Lemma unknown_reserved_sync (i : in_regs) (data_length : Z) (w : world) :
  buffers_ok w ->
  tx_link_state (lbp w) = STATE_IDLE ->
  LBP_TYPE w = LBP_SYNC ->
  packet_id w < 0x10 ->
  packet_id w <> LBP_NACK ->
  packet_id w <> LBP_IDENTIFY ->
  packet_id w <> LBP_EXTENDED_IDENTIFY ->
  packet_id w <> LBP_NETWORK_DISCOVERY ->
  packet_id w <> LBP_STATUS_REQUEST ->
  let w' := parse_packet i data_length w in
  tx_link_state (lbp w') = STATE_FRAME /\
  lbp_tx_buffer_length (lbp w') = 0 + 3 /\
  reply_srcinfo w' = LBP_SOURCE_ADDRESS /\
  reply_id w' = reply_id w /\
  packet_id w' = LBP_NACK.
Proof.
  intros Hbuf Hidle Htype Hres H1 H2 H3 H4 H6 w'. subst w'.
  enter_parse_packet Hidle. destruct Hbuf as [Hrx Htx].
  apply Z.ltb_lt in Hres.
  apply Z.eqb_neq in H1, H2, H3, H4, H6.
  rewrite Htype, Hres, H1, H2, H3, H4, H6.
  change (LBP_SYNC =? LBP_REPLY) with false.
  change (LBP_SYNC =? LBP_SYNC) with true. cbv iota.
  autorewrite with lbp. rd_wr. repeat split; reflexivity.
Qed.

(** The default case for any other request that is no reply: the transmit
    buffer is released and nothing is sent. *)
Lemma unknown_reserved_not_sync (i : in_regs) (data_length : Z) (w : world) :
  tx_link_state (lbp w) = STATE_IDLE ->
  LBP_TYPE w <> LBP_SYNC ->
  packet_id w < 0x10 ->
  packet_id w <> LBP_NACK ->
  packet_id w <> LBP_IDENTIFY ->
  packet_id w <> LBP_EXTENDED_IDENTIFY ->
  packet_id w <> LBP_NETWORK_DISCOVERY ->
  packet_id w <> LBP_STATUS_REQUEST ->
  let w' := parse_packet i data_length w in
  tx_link_state (lbp w') = STATE_IDLE /\
  UDR0_sent (out w') = UDR0_sent (out w).
Proof.
  intros Hidle Htype Hres H1 H2 H3 H4 H6 w'. subst w'.
  enter_parse_packet Hidle.
  apply Z.ltb_lt in Hres.
  apply Z.eqb_neq in Htype, H1, H2, H3, H4, H6.
  rewrite Htype, Hres, H1, H2, H3, H4, H6.
  destruct (_ =? LBP_REPLY); autorewrite with lbp; split; reflexivity.
Qed.

(** C7 fails on the code.  The synchronous request with the reserved id
    0x08, received after reset, is handed to [parse_packet] once and
    answered, but the id byte of the answer is 0x00, not Nack (0x01), and
    its type bits are not those of a reply: Nack and the reply type went
    into the receive buffer.  The same happens for extended identify with
    the reserved page 0x10; and after an answer to a battery request the
    next such answer carries that answer's id, 0x13. *)
Theorem unknown_reserved_reply_is_no_nack :
  (let w := receive quiet_pins unknown_reserved_frame boot_world in
   length (parsed w) = 1%nat /\
   tx_link_state (lbp w) = STATE_FRAME /\
   reply_id w = 0x00 /\
   packet_id w = LBP_NACK /\
   UDR0_sent (out (tx_drain 80 w))
   = [CHAR_START; 0x3F; 0x05; 0x00; 0x7E; CHAR_STOP]) /\
  (let w := receive quiet_pins reserved_page_frame boot_world in
   tx_link_state (lbp w) = STATE_FRAME /\
   reply_id w = 0x00 /\
   packet_id w = LBP_NACK /\
   UDR0_sent (out (tx_drain 80 w))
   = [CHAR_START; 0x3F; 0x05; 0x00; 0x7E; CHAR_STOP]) /\
  (let w0 := tx_drain 80 (receive quiet_pins battery_frame boot_world) in
   let w := receive quiet_pins unknown_reserved_frame w0 in
   tx_link_state (lbp w) = STATE_FRAME /\
   reply_id w = LBP_GET_BATTERY_VOLTAGE).
Proof. vm_compute. repeat split; reflexivity. Qed.

(** The asynchronous half of C7 holds: the same request sent
    asynchronously is handed to [parse_packet] and not answered. *)
Example unknown_reserved_async_is_dropped :
  let w := receive quiet_pins unknown_reserved_async_frame boot_world in
  length (parsed w) = 1%nat /\
  tx_link_state (lbp w) = STATE_IDLE /\
  UDR0_sent (out (tx_drain 80 w)) = [].
Proof. vm_compute. repeat split; reflexivity. Qed.

(** ** The link layer, transmit direction *)

Ltac tx_unfold :=
  cbv [USART0_TX_vect tx_set UDR0_write set_UDR0 set_out set_lbp
       set_tx_link_state set_tx_crc set_lbp_tx_buffer_index
       lbp out tx_link_state tx_crc lbp_tx_buffer lbp_tx_buffer_length
       lbp_tx_buffer_index UDR0_sent PORTA PORTB PORTC OCR1B
       rx_link_state rx_crc lbp_rx_buffer lbp_rx_buffer_length
       flight_state buzzer_queue buzzer_state current_beep_duration
       timer_20ms eeprom parsed
       link_state_eqb orb] in *.

Section Transmit.
Variable w : world.

(** The transmit buffer and the length of the packet in it; the transmit
    interrupt writes neither. *)
Local Abbreviation buf := (lbp_tx_buffer (lbp w)).
Local Abbreviation n := (lbp_tx_buffer_length (lbp w)).

Lemma tx_step_plain (k c : Z) (sent : list Z) :
  k <> n -> is_special (rd buf k) = false ->
  USART0_TX_vect (tx_set STATE_FRAME k c sent w)
  = tx_set STATE_FRAME (u8 (k + 1)) (crc8 (rd buf k) c)
      (sent ++ [rd buf k]) w.
Proof.
  open_world w. destruct o. tx_unfold.
  intros Hk Hb. apply Z.eqb_neq in Hk. rewrite Hk, Hb. reflexivity.
Qed.

Lemma tx_step_special (k c : Z) (sent : list Z) :
  k <> n -> is_special (rd buf k) = true ->
  USART0_TX_vect (tx_set STATE_FRAME k c sent w)
  = tx_set STATE_ESCAPING (u8 (k + 1)) (crc8 (rd buf k) c)
      (sent ++ [CHAR_ESCAPE]) w.
Proof.
  open_world w. destruct o. tx_unfold.
  intros Hk Hb. apply Z.eqb_neq in Hk. rewrite Hk, Hb. reflexivity.
Qed.

Lemma tx_step_escaped (k c : Z) (sent : list Z) :
  k <> n ->
  USART0_TX_vect (tx_set STATE_ESCAPING k c sent w)
  = tx_set STATE_FRAME k c (sent ++ [bnot8 (rd buf (k - 1))]) w.
Proof.
  open_world w. destruct o. tx_unfold.
  intros Hk. apply Z.eqb_neq in Hk. rewrite Hk. reflexivity.
Qed.

Lemma tx_step_crc_plain (c : Z) (sent : list Z) :
  is_special c = false ->
  USART0_TX_vect (tx_set STATE_FRAME n c sent w)
  = tx_set STATE_ENDING n c (sent ++ [c]) w.
Proof.
  open_world w. destruct o. tx_unfold.
  intros Hc. rewrite Z.eqb_refl, Hc. reflexivity.
Qed.

Lemma tx_step_crc_special (c : Z) (sent : list Z) :
  is_special c = true ->
  USART0_TX_vect (tx_set STATE_FRAME n c sent w)
  = tx_set STATE_ESCAPING n c (sent ++ [CHAR_ESCAPE]) w.
Proof.
  open_world w. destruct o. tx_unfold.
  intros Hc. rewrite Z.eqb_refl, Hc. reflexivity.
Qed.

Lemma tx_step_crc_escaped (c : Z) (sent : list Z) :
  USART0_TX_vect (tx_set STATE_ESCAPING n c sent w)
  = tx_set STATE_ENDING n c (sent ++ [bnot8 c]) w.
Proof.
  open_world w. destruct o. tx_unfold.
  rewrite Z.eqb_refl. reflexivity.
Qed.

Lemma tx_step_ending (k c : Z) (sent : list Z) :
  USART0_TX_vect (tx_set STATE_ENDING k c sent w)
  = tx_set STATE_IDLE k c (sent ++ [CHAR_STOP]) w.
Proof.
  open_world w. destruct o. tx_unfold. reflexivity.
Qed.

Lemma tx_drain_step (fuel : nat) (st : link_state) (k c : Z)
    (sent : list Z) :
  st <> STATE_IDLE ->
  tx_drain (S fuel) (tx_set st k c sent w)
  = tx_drain fuel (USART0_TX_vect (tx_set st k c sent w)).
Proof.
  intros Hst. cbn [tx_drain].
  change (tx_link_state (lbp (tx_set st k c sent w))) with st.
  destruct st; try reflexivity. contradiction.
Qed.

Lemma tx_drain_idle (fuel : nat) (k c : Z) (sent : list Z) :
  tx_drain fuel (tx_set STATE_IDLE k c sent w) = tx_set STATE_IDLE k c sent w.
Proof. destruct fuel; reflexivity. Qed.

Lemma rd_middle (pre post : list Z) (b : Z) :
  rd (pre ++ b :: post) (Z.of_nat (length pre)) = b.
Proof.
  unfold rd. rewrite Nat2Z.id, list_lookup_middle by reflexivity.
  reflexivity.
Qed.

Lemma plain_end_tail (b : Z) (rest : list Z) :
  plain_end (b :: rest) -> plain_end rest.
Proof.
  unfold plain_end. destruct rest as [| b' rest]; [reflexivity |].
  intros H. exact H.
Qed.

Lemma tx_drain_data (data : list Z) :
  forall (pre post : list Z) (c : Z) (sent : list Z) (fuel : nat),
    buf = pre ++ data ++ post ->
    n = Z.of_nat (length pre + length data) ->
    n < 256 ->
    plain_end data ->
    (2 * length data + 3 <= fuel)%nat ->
    tx_drain fuel (tx_set STATE_FRAME (Z.of_nat (length pre)) c sent w)
    = tx_set STATE_IDLE n (crc8_run c data)
        (sent ++ flat_map escape data ++ escape (crc8_run c data)
         ++ [CHAR_STOP]) w.
Proof.
  induction data as [| b rest IH];
    intros pre post c sent fuel Hbuf Hn Hmax Hend Hfuel.
  - (* the checksum and STOP *)
    cbn [length flat_map crc8_run fold_left app] in *.
    rewrite Nat.add_0_r in Hn. rewrite <- Hn.
    destruct fuel as [| [| [| fuel]]]; try lia.
    unfold escape. destruct (is_special c) eqn:Hc.
    + rewrite tx_drain_step, tx_step_crc_special by (exact Hc || discriminate).
      rewrite tx_drain_step, tx_step_crc_escaped by discriminate.
      rewrite tx_drain_step, tx_step_ending by discriminate.
      rewrite tx_drain_idle, <- !app_assoc. reflexivity.
    + rewrite tx_drain_step, tx_step_crc_plain by (exact Hc || discriminate).
      rewrite tx_drain_step, tx_step_ending by discriminate.
      rewrite tx_drain_idle, <- !app_assoc. reflexivity.
  - (* one byte of the packet *)
    cbn [length] in Hn, Hfuel.
    assert (Hk : Z.of_nat (length pre) <> n) by lia.
    assert (Hb : rd buf (Z.of_nat (length pre)) = b).
    { rewrite Hbuf. apply rd_middle. }
    assert (Hnext : u8 (Z.of_nat (length pre) + 1)
                    = Z.of_nat (length (pre ++ [b]))).
    { rewrite length_app. cbn [length]. unfold u8.
      rewrite Z.mod_small by lia. lia. }
    assert (Hbuf' : buf = (pre ++ [b]) ++ rest ++ post).
    { rewrite Hbuf, <- app_assoc. reflexivity. }
    assert (Hn' : n = Z.of_nat (length (pre ++ [b]) + length rest)).
    { rewrite length_app. cbn [length]. lia. }
    cbn [flat_map]. change (crc8_run c (b :: rest))
      with (crc8_run (crc8 b c) rest).
    destruct fuel as [| [| fuel]]; try lia.
    unfold escape at 1. destruct (is_special b) eqn:Hsp.
    + (* stuffed *)
      destruct rest as [| b' rest].
      { unfold plain_end in Hend. cbn in Hend. congruence. }
      rewrite tx_drain_step, tx_step_special
        by (rewrite ?Hb; assumption || discriminate).
      rewrite Hb, Hnext.
      rewrite tx_drain_step, tx_step_escaped
        by (try discriminate; rewrite length_app; cbn [length] in *; lia).
      replace (Z.of_nat (length (pre ++ [b])) - 1)
        with (Z.of_nat (length pre))
        by (rewrite length_app; cbn [length]; lia).
      rewrite Hb.
      rewrite (IH (pre ++ [b]) post) by
        (try assumption; try (apply plain_end_tail with b; assumption);
         cbn [length] in *; lia).
      rewrite <- !app_assoc. reflexivity.
    + (* as it is *)
      rewrite tx_drain_step, tx_step_plain
        by (rewrite ?Hb; assumption || discriminate).
      rewrite Hb, Hnext.
      rewrite (IH (pre ++ [b]) post) by
        (try assumption; try (apply plain_end_tail with b; assumption);
         cbn [length] in *; lia).
      rewrite <- !app_assoc. reflexivity.
Qed.
End Transmit.
(** ** Round trip *)

Lemma is_special_false (b : Z) :
  is_special b = false ->
  (b =? CHAR_ESCAPE) = false /\ (b =? CHAR_START) = false /\
  (b =? CHAR_STOP) = false.
Proof.
  unfold is_special. intros H.
  apply orb_false_iff in H as [H He].
  apply orb_false_iff in H as [Hp Hs]. auto.
Qed.

Lemma bnot8_involutive (b : Z) : is_byte b -> bnot8 (bnot8 b) = b.
Proof. unfold is_byte, bnot8, u8, Z.lnot. intros H. zmod. Qed.

Lemma crc8_round_byte (c : Z) : is_byte (crc8_round c).
Proof.
  unfold crc8_round, is_byte, u8.
  destruct (truthy _); apply Z.mod_pos_bound; lia.
Qed.

Lemma crc8_byte (d c : Z) : is_byte (crc8 d c).
Proof. unfold crc8. cbn [Nat.iter]. apply crc8_round_byte. Qed.

Lemma crc8_run_byte (data : list Z) (acc : Z) :
  is_byte acc -> is_byte (crc8_run acc data).
Proof.
  revert acc. induction data as [| b rest IH]; intros acc Hacc.
  - exact Hacc.
  - apply IH, crc8_byte.
Qed.

Lemma receive_app (i : in_regs) (xs ys : list Z) (w : world) :
  receive i (xs ++ ys) w = receive i ys (receive i xs w).
Proof. unfold receive. apply fold_left_app. Qed.

Section Receive.
Variable i : in_regs.
Variable w : world.

Lemma rx_step_start (st : link_state) (len c : Z) (buf : list Z) :
  st = STATE_IDLE ->
  USART0_RX_vect i CHAR_START (rx_set st len c buf w)
  = rx_set STATE_FRAME 0 0 buf w.
Proof. intros ->. reflexivity. Qed.

Lemma rx_step_plain (b len c : Z) (buf : list Z) :
  is_special b = false -> len <> LBP_BUFFER_SIZE ->
  USART0_RX_vect i b (rx_set STATE_FRAME len c buf w)
  = rx_set STATE_FRAME (u8 (len + 1)) (crc8 b c) (wr buf len b) w.
Proof.
  intros Hb Hlen. apply is_special_false in Hb as (He & Hs & Hp).
  apply Z.eqb_neq in Hlen.
  rx_unfold. rewrite He, Hs, Hp, Hlen. reflexivity.
Qed.

Lemma rx_step_escape (len c : Z) (buf : list Z) :
  USART0_RX_vect i CHAR_ESCAPE (rx_set STATE_FRAME len c buf w)
  = rx_set STATE_ESCAPING len c buf w.
Proof. reflexivity. Qed.

Lemma rx_step_escaped (x len c : Z) (buf : list Z) :
  len <> LBP_BUFFER_SIZE ->
  USART0_RX_vect i x (rx_set STATE_ESCAPING len c buf w)
  = rx_set STATE_FRAME (u8 (len + 1)) (crc8 (bnot8 x) c)
      (wr buf len (bnot8 x)) w.
Proof.
  intros Hlen. apply Z.eqb_neq in Hlen.
  rx_unfold. rewrite Hlen. reflexivity.
Qed.

Lemma rx_step_stop (len : Z) (buf : list Z) :
  4 <= len ->
  USART0_RX_vect i CHAR_STOP (rx_set STATE_FRAME len 0 buf w)
  = parse_packet i (u8 (len - 4))
      (set_parsed (parsed w ++ [(buf, u8 (len - 4))])
         (rx_set STATE_IDLE len 0 buf w)).
Proof.
  intros Hlen. apply Z.geb_le in Hlen.
  rx_unfold.
  change (CHAR_STOP =? CHAR_ESCAPE) with false.
  change (CHAR_STOP =? CHAR_START) with false.
  change (CHAR_STOP =? CHAR_STOP) with true.
  cbv iota. change (truthy 0) with false. cbn [negb andb].
  rewrite Hlen. reflexivity.
Qed.

(** One byte of the packet, stuffed or not, arrives in the buffer. *)
Lemma rx_byte (b len c : Z) (buf : list Z) :
  is_byte b -> len <> LBP_BUFFER_SIZE ->
  receive i (escape b) (rx_set STATE_FRAME len c buf w)
  = rx_set STATE_FRAME (u8 (len + 1)) (crc8 b c) (wr buf len b) w.
Proof.
  intros Hb Hlen. unfold escape.
  destruct (is_special b) eqn:Hsp; cbn [receive fold_left].
  - rewrite rx_step_escape, rx_step_escaped by exact Hlen.
    rewrite bnot8_involutive by exact Hb. reflexivity.
  - apply rx_step_plain; assumption.
Qed.

Lemma rx_data (data : list Z) :
  forall (pre old post : list Z) (c : Z),
    Forall is_byte data ->
    length old = length data ->
    (length pre + length data <= Z.to_nat LBP_BUFFER_SIZE)%nat ->
    receive i (flat_map escape data)
      (rx_set STATE_FRAME (Z.of_nat (length pre)) c (pre ++ old ++ post) w)
    = rx_set STATE_FRAME (Z.of_nat (length pre + length data))
        (crc8_run c data) (pre ++ data ++ post) w.
Proof.
  induction data as [| b rest IH]; intros pre old post c Hbytes Hold Hfit.
  - destruct old; [| discriminate].
    cbn [flat_map receive fold_left length]. rewrite Nat.add_0_r.
    reflexivity.
  - destruct old as [| o old]; [discriminate |].
    apply Forall_cons in Hbytes as [Hb Hrest].
    cbn [length] in *. injection Hold as Hold.
    cbn [flat_map]. rewrite receive_app.
    rewrite rx_byte by (try assumption; unfold LBP_BUFFER_SIZE in *; lia).
    cbn [app]. rewrite wr_middle.
    replace (u8 (Z.of_nat (length pre) + 1))
      with (Z.of_nat (length (pre ++ [b])))
      by (rewrite length_app; cbn [length]; unfold u8, LBP_BUFFER_SIZE in *;
          rewrite Z.mod_small; lia).
    replace (pre ++ b :: old ++ post) with ((pre ++ [b]) ++ old ++ post)
      by (rewrite <- app_assoc; reflexivity).
    rewrite IH by
      (try assumption; rewrite length_app; cbn [length]; lia).
    rewrite length_app, <- app_assoc. cbn [length app].
    f_equal. lia.
Qed.
End Receive.
(** The transmit buffer once claimed. *)
Lemma claimed_when_idle (w : world) :
  tx_link_state (lbp w) = STATE_IDLE ->
  lbp_get_tx_buffer w
  = (true, set_reply_srcinfo LBP_SOURCE_ADDRESS
             (set_lbp (set_tx_link_state STATE_FILLING (lbp w)) w)).
Proof. intros H. unfold lbp_get_tx_buffer. rewrite H. reflexivity. Qed.

(** The transmit path of an idle transmitter sends the frame of the packet
    and is idle again within the interrupts [transmit] allows for. *)
Lemma transmit_frame (w : world) (header payload : list Z) :
  tx_ready w ->
  length header = 3%nat ->
  (length payload <= 29)%nat ->
  plain_end (header ++ payload) ->
  tx_link_state (lbp (transmit header payload w)) = STATE_IDLE /\
  wire_from w header payload = frame_of (header ++ payload).
Proof.
  intros [Hidle Hsize] Hh Hp Hend. unfold wire_from, transmit.
  rewrite (claimed_when_idle w Hidle). cbn [negb].
  set (w1 := set_reply_srcinfo _ _).
  set (data := header ++ payload) in *.
  assert (Hlen : length data = (3 + length payload)%nat).
  { subst data. rewrite length_app, Hh. reflexivity. }
  assert (Hsize1 : length (lbp_tx_buffer (lbp w1)) = 32%nat).
  { subst w1. unfold set_reply_srcinfo.
    rewrite tx_buffer_set_reply, length_wr. exact Hsize. }
  change 0 with (Z.of_nat 0).
  rewrite fill_reply_buffer by (rewrite Hsize1; lia).
  cbn [take app Nat.add].
  set (post := drop (length data) (lbp_tx_buffer (lbp w1))).
  set (w2 := set_lbp _ w1).
  set (n := u8 (Z.of_nat (length payload) + 3)).
  assert (Hn : n = Z.of_nat (length data)).
  { subst n. unfold u8. rewrite Z.mod_small; lia. }
  change (lbp_send_message (Z.of_nat (length payload)) w2)
    with (tx_set STATE_FRAME (Z.of_nat (length (@nil Z))) 0
            (UDR0_sent (out w) ++ [CHAR_START])
            (set_lbp (set_lbp_tx_buffer_length n (lbp w2)) w2)).
  rewrite (tx_drain_data _ data [] post).
  - split; [reflexivity |].
    cbn [out tx_set set_out UDR0_sent].
    rewrite <- app_assoc, drop_app_length. reflexivity.
  - reflexivity.
  - exact Hn.
  - change (n < 256). lia.
  - exact Hend.
  - lia.
Qed.

Lemma rx_set_self (w : world) :
  w = rx_set (rx_link_state (lbp w)) (lbp_rx_buffer_length (lbp w))
        (rx_crc (lbp w)) (lbp_rx_buffer (lbp w)) w.
Proof. open_world w. reflexivity. Qed.

Lemma delivered_frame (i : in_regs) (w : world) (header payload : list Z) :
  rx_ready w ->
  length header = 3%nat ->
  (length payload <= 28)%nat ->
  Forall is_byte (header ++ payload) ->
  delivered_to i w (frame_of (header ++ payload))
  = [(header ++ payload, Z.of_nat (length payload))].
Proof.
  intros [Hidle Hsize] Hh Hp Hbytes.
  set (data := header ++ payload) in *.
  assert (Hlen : length data = (3 + length payload)%nat).
  { subst data. rewrite length_app, Hh. reflexivity. }
  set (crc := crc8_run 0 data).
  assert (Hcrc : is_byte crc).
  { apply crc8_run_byte. unfold is_byte. lia. }
  unfold delivered_to, frame_of. fold crc.
  replace (flat_map escape data ++ escape crc ++ [CHAR_STOP])
    with (flat_map escape (data ++ [crc]) ++ [CHAR_STOP])
    by (rewrite flat_map_app, <- app_assoc; cbn [flat_map];
        rewrite app_nil_r; reflexivity).
  change (CHAR_START :: ?l) with ([CHAR_START] ++ l).
  rewrite !receive_app.
  set (buf0 := lbp_rx_buffer (lbp w)) in *.
  replace (receive i [CHAR_START] w)
    with (rx_set STATE_FRAME 0 0 buf0 w)
    by (rewrite (rx_set_self w) at 2; symmetry;
        apply rx_step_start; exact Hidle).
  rewrite <- (take_drop (length (data ++ [crc])) buf0).
  change (rx_set STATE_FRAME 0 0 ?b w)
    with (rx_set STATE_FRAME (Z.of_nat (length (@nil Z))) 0 ([] ++ b) w).
  rewrite (rx_data i w (data ++ [crc]) []).
  change (receive i [CHAR_STOP] ?v) with (USART0_RX_vect i CHAR_STOP v).
  - replace (crc8_run 0 (data ++ [crc])) with 0
      by (rewrite crc8_run_app; cbn [crc8_run fold_left]; subst crc;
          symmetry; apply crc8_self).
    rewrite rx_step_stop
      by (rewrite length_app; cbn [length]; lia).
    rewrite parsed_parse_packet.
    cbn [parsed set_parsed rx_set set_lbp].
    rewrite drop_app_length.
    cbn [app map fst snd].
    replace (u8 (Z.of_nat (length [] + length (data ++ [crc])) - 4))
      with (Z.of_nat (length payload))
      by (rewrite length_app; cbn [length]; unfold u8;
          rewrite Z.mod_small; lia).
    replace (Z.to_nat (3 + Z.of_nat (length payload))) with (length data)
      by lia.
    rewrite <- app_assoc, take_app_length. reflexivity.
  - apply Forall_app. split; [exact Hbytes |].
    apply Forall_cons. split; [exact Hcrc | apply Forall_nil_2].
  - rewrite length_take, Hsize, length_app. cbn [length].
    unfold LBP_BUFFER_SIZE. lia.
  - rewrite length_app. cbn [length]. unfold LBP_BUFFER_SIZE. lia.
Qed.

(** C3, amended.  A packet of three header bytes and at most 28 payload
    bytes, whose last byte is none of START, STOP and ESCAPE, is sent
    through [lbp_send_message] and the transmit interrupt of an idle
    transmitter, which is idle again afterwards; fed byte by byte to the
    receive interrupt of an idle receiver, what was sent reaches
    [parse_packet] exactly once, with header and payload as sent and with
    the payload length as [data_length].  The other bytes of the packet may
    be START, STOP or ESCAPE. *)
Theorem round_trip_plain_end (sender receiver : world) (i : in_regs)
    (header payload : list Z) :
  tx_ready sender ->
  rx_ready receiver ->
  length header = 3%nat ->
  (length payload <= 28)%nat ->
  Forall is_byte (header ++ payload) ->
  plain_end (header ++ payload) ->
  tx_link_state (lbp (transmit header payload sender)) = STATE_IDLE /\
  round_trip sender receiver i header payload.
Proof.
  intros Htx Hrx Hh Hp Hbytes Hend.
  destruct (transmit_frame sender header payload) as [Hdone Hwire];
    try assumption; try lia.
  split; [exact Hdone |].
  unfold round_trip. rewrite Hwire.
  apply delivered_frame; assumption.
Qed.

(** ** Packets that do not survive the trip *)

(** A payload of 29 plain bytes is sent, but the receive buffer has to hold
    the checksum as well: it is full when the checksum arrives, and the
    frame is given up. *)
Example long_payload_not_delivered :
  length long_payload = 29%nat /\
  Forall is_byte (long_header ++ long_payload) /\
  plain_end (long_header ++ long_payload) /\
  length (wire_of long_header long_payload) = 35%nat /\
  delivered (wire_of long_header long_payload) = [].
Proof.
  split; [reflexivity |]. split.
  - repeat constructor; unfold is_byte; lia.
  - vm_compute. repeat split; reflexivity.
Qed.

(** When the last byte of a packet is a reserved character, the transmit
    interrupt sends ESCAPE and then, having reached the end of the data,
    the complement of the checksum in place of the complement of the byte
    and no checksum after it; the receiver finds a bad checksum. *)
Example trailing_reserved_byte_not_delivered :
  wire_of [0x7F; 0x00; 0x24] [CHAR_START]
  = [CHAR_START; 0x7F; 0x00; 0x24; CHAR_ESCAPE; bnot8 0x2C; CHAR_STOP] /\
  crc8_run 0 [0x7F; 0x00; 0x24; CHAR_START] = 0x2C /\
  delivered (wire_of [0x7F; 0x00; 0x24] [CHAR_START]) = [].
Proof. vm_compute. repeat split; reflexivity. Qed.

(** C3, as stated, fails: not every packet with a payload of 0 to 29 bytes
    comes through, even between an idle transmitter and an idle receiver. *)
Lemma round_trip_not_for_29_bytes :
  ~ (forall (sender receiver : world) (i : in_regs)
            (header payload : list Z),
        tx_ready sender ->
        rx_ready receiver ->
        length header = 3%nat ->
        (length payload <= 29)%nat ->
        Forall is_byte (header ++ payload) ->
        round_trip sender receiver i header payload).
Proof.
  intros H.
  assert (Hrt : round_trip boot_world boot_world quiet_pins
                  long_header long_payload).
  { apply H.
    - split; reflexivity.
    - split; reflexivity.
    - reflexivity.
    - cbn. lia.
    - repeat constructor; unfold is_byte; lia. }
  unfold round_trip in Hrt. vm_compute in Hrt. discriminate Hrt.
Qed.

Lemma round_trip_plain_end_witness :
  tx_link_state (lbp (transmit stuffed_header stuffed_payload boot_world))
  = STATE_IDLE /\
  round_trip boot_world boot_world quiet_pins stuffed_header stuffed_payload.
Proof.
  apply (round_trip_plain_end boot_world boot_world quiet_pins
           stuffed_header stuffed_payload).
  - split; reflexivity.
  - split; reflexivity.
  - reflexivity.
  - cbn. lia.
  - repeat constructor; unfold is_byte, CHAR_START, CHAR_STOP, CHAR_ESCAPE;
      lia.
  - reflexivity.
Defined.

Example stuffed_packet_on_the_wire :
  wire_of stuffed_header stuffed_payload
  = [CHAR_START; 0x7F; 0x00; 0x24;
     CHAR_ESCAPE; bnot8 CHAR_START; CHAR_ESCAPE; bnot8 CHAR_STOP;
     CHAR_ESCAPE; bnot8 CHAR_ESCAPE; 0x01; 0x17; CHAR_STOP].
Proof. vm_compute. reflexivity. Qed.
